(** * The account-deletion request handler (manage-account-deletion)

  A shallow embedding of the serverless handler registered with
  [Deno.serve]: one entry point, three actions ([request_deletion],
  [cancel_deletion], [get_status]) over the table
  [account_deletion_requests].

  The handler's own code is embedded statement by statement, in a small
  monad of storage state and thrown values.  The storage client it calls
  (supabase-js v2 over PostgREST) is an external collaborator: it is
  modelled by an in-memory table with the result conventions of
  [maybeSingle] and [single], one invocation running at a time.  The
  console is no part of the state: of the log calls, the model keeps the
  evaluation of the template literal, which can throw. *)

From Stdlib Require Import List String ZArith Bool Arith Lia DecimalString.
Import ListNotations.
Local Open Scope string_scope.
Local Open Scope list_scope.

(* ------------------------------------------------------------------ *)
(** ** JavaScript values that reach the handler *)

Module Js.

(** The value [req.json()] resolves to: a JSON document.  Numbers are kept
  as integers; the handler only tests them against zero. *)
#[local] Unset Elimination Schemes.
Inductive json : Type :=
| JNull
| JBool (b : bool)
| JNum (n : Z)
| JStr (s : string)
| JArr (items : list json)
| JObj (fields : list (string * json)).
#[local] Set Elimination Schemes.

(** A JavaScript value bound by the destructuring pattern: [None] is
    [undefined]. *)
Definition value : Type := option json.

Fixpoint assoc (k : string) (fields : list (string * json)) : value :=
  match fields with
  | [] => None
  | (k', v) :: rest => if String.eqb k' k then Some v else assoc k rest
  end.

(** [v.k] for the two property names the handler reads, [action] and
    [user_id]: only an object parsed from JSON carries them; on a string,
    number, boolean or array the lookup ends in the prototype chain with
    [undefined]. *)
Definition prop (v : json) (k : string) : value :=
  match v with
  | JObj fields => assoc k fields
  | _ => None
  end.

(** [!!x]: [undefined], [null], [false], [0] and the empty string are
    falsy, every other value is truthy. *)
Definition truthy (x : value) : bool :=
  match x with
  | None => false
  | Some JNull => false
  | Some (JBool b) => b
  | Some (JNum n) => negb (Z.eqb n 0)
  | Some (JStr s) => negb (String.eqb s "")
  | Some (JArr _) => true
  | Some (JObj _) => true
  end.

(** [x === 'lit']: strict equality with a string literal. *)
Definition strict_eq_str (x : value) (lit : string) : bool :=
  match x with
  | Some (JStr s) => String.eqb s lit
  | _ => false
  end.

(** [Number::toString] on the integers the model keeps: decimal notation. *)
Definition number_text (n : Z) : string :=
  NilZero.string_of_int (Z.to_int n).

(** [ToString(v)] for a parsed document, [None] when it throws a
  [TypeError].  An array is joined with commas, [null] elements giving the
  empty string.  An object parsed from JSON prints as [[object Object]]
  through [Object.prototype.toString], unless it has a field [toString] of
  its own: that field is not callable, [valueOf] does not produce a
  primitive either, and the conversion throws. *)
Fixpoint ToString (v : json) : option string :=
  match v with
  | JNull => Some "null"
  | JBool true => Some "true"
  | JBool false => Some "false"
  | JNum n => Some (number_text n)
  | JStr s => Some s
  | JArr items =>
      (fix join (l : list json) : option string :=
         match l with
         | [] => Some ""
         | x :: rest =>
             match match x with
                   | JNull => Some ""
                   | _ => ToString x
                   end with
             | None => None
             | Some first =>
                 match rest with
                 | [] => Some first
                 | _ :: _ =>
                     match join rest with
                     | None => None
                     | Some others => Some (first ++ "," ++ others)%string
                     end
                 end
             end
         end) items
  | JObj fields =>
      match assoc "toString" fields with
      | Some _ => None
      | None => Some "[object Object]"
      end
  end.

(** [ToString] of a value that may be [undefined]. *)
Definition to_text (x : value) : option string :=
  match x with
  | None => Some "undefined"
  | Some v => ToString v
  end.

End Js.
Import Js.

(* ------------------------------------------------------------------ *)
(** ** Dates *)

Module DateTime.
Local Open Scope Z_scope.

(** A [Date] is its time value: milliseconds since the epoch.
    [toISOString] renders it injectively, so a timestamp column is kept as
    the time value itself. *)
Definition time : Type := Z.

Definition msPerDay : Z := 86400000.

Definition Day (t : time) : Z := t / msPerDay.
Definition TimeWithinDay (t : time) : Z := t mod msPerDay.
Definition MakeDate (day ms : Z) : time := day * msPerDay + ms.

(** Day of the month, 1 to 31, of the proleptic Gregorian calendar day that
  contains [t]. *)
Definition DateFromTime (t : time) : Z :=
  let z := Day t + 719468 in
  let era := z / 146097 in
  let doe := z - era * 146097 in
  let yoe := (doe - doe / 1460 + doe / 36524 - doe / 146096) / 365 in
  let doy := doe - (365 * yoe + yoe / 4 - yoe / 100) in
  let mp := (5 * doy + 2) / 153 in
  doy - (153 * mp + 2) / 5 + 1.

(** [MakeDay(YearFromTime(t), MonthFromTime(t), dt)]: the day number of the
  first of [t]'s month, plus [dt - 1]. *)
Definition MakeDay_in_month_of (t : time) (dt : Z) : Z :=
  (Day t - (DateFromTime t - 1)) + dt - 1.

(** [d.getDate()] and [d.setDate(dt)], local time being UTC as on the edge
  runtime; [setDate] keeps the time within the day and lets [dt] run over
  the end of the month. *)
Definition getDate (d : time) : Z := DateFromTime d.

Definition setDate (d : time) (dt : Z) : time :=
  MakeDate (MakeDay_in_month_of d dt) (TimeWithinDay d).

End DateTime.
Import DateTime.

(* ------------------------------------------------------------------ *)
(** ** The table account_deletion_requests

  The storage behind the client, as far as the handler can observe it.
  A row has the columns of the data model.  The [user_id] column holds
  the key of an account.  A filter compares the column with the text the
  client puts in the query string for the value.  An insert takes a JSON
  string as the key it is, and refuses any other value.  The storage has
  no failures of its own (network, permissions): its only errors are the
  ones the rows and the values decide. *)

Module Storage.

Inductive row_status : Type := pending | cancelled | completed.

Definition status_eqb (a b : row_status) : bool :=
  match a, b with
  | pending, pending | cancelled, cancelled | completed, completed => true
  | _, _ => false
  end.

Record row : Type := mkRow {
  id : nat;
  user_id : string;
  status : row_status;
  scheduled_deletion_at : time;
  cancelled_at : option time
}.

Definition table : Type := list row.

(** The error object of a [{ data, error }] result. *)
Record pg_error : Type := mkErr { code : string; message : string }.

(** [{ data, error }]: exactly one of the two is set. *)
Inductive result (A : Type) : Type :=
| Data (data : A)
| Error (error : pg_error).
Arguments Data {A} data.
Arguments Error {A} error.

(** PostgREST's answer when [single] or [maybeSingle] does not find the
    number of rows it asks for. *)
Definition PGRST116 : pg_error :=
  mkErr "PGRST116" "JSON object requested, multiple (or no) rows returned".

(** The answer (SQLSTATE 22P02) to an inserted value that is no key of the
    [user_id] column, which references an account: in this model every
    JSON string is a key and nothing else is. *)
Definition invalid_text_representation : pg_error :=
  mkErr "22P02" "invalid input syntax for type uuid".

(** [.eq('user_id', u).eq('status', st)] *)
Definition matches (u : string) (st : row_status) (r : row) : bool :=
  String.eqb (user_id r) u && status_eqb (status r) st.

Definition matching (u : string) (st : row_status) (t : table) : list row :=
  filter (matches u st) t.

(** One access to the table, as the storage sees it. *)
Inductive access : Type :=
| Select (uid : value) (st : row_status)
| Insert (uid : value)
| Update (uid : value) (st : row_status).

Definition is_write (a : access) : bool :=
  match a with
  | Select _ _ => false
  | Insert _ | Update _ _ => true
  end.


(** The storage: the rows, in insertion order, and the accesses made so
    far, oldest first. *)
Record world : Type := mkWorld {
  rows : table;
  trace : list access
}.

Definition log (a : access) (w : world) : world :=
  mkWorld (rows w) (trace w ++ [a]).

(** The identifier the storage generates for a new row. *)
Definition fresh_id (t : table) : nat := S (list_max (map id t)).

(** [.select('*').eq('user_id', uid).eq('status', st).maybeSingle()],
    where [key] is the text the client has written for [uid] in the filter
    [user_id=eq.key]: no row is [null], one row is that row, several rows
    are an error. *)
Definition select_maybeSingle (uid : value) (key : string) (st : row_status)
    (w : world) : result (option row) * world :=
  let w' := log (Select uid st) w in
  match matching key st (rows w) with
  | [] => (Data None, w')
  | [r] => (Data (Some r), w')
  | _ :: _ :: _ => (Error PGRST116, w')
  end.

(** [.insert({ user_id, scheduled_deletion_at, status }).select().single()]:
    the row is stored with a generated [id] and no [cancelled_at], and is
    returned. *)
Definition insert_single (uid : value) (sched : time) (st : row_status)
    (w : world) : result row * world :=
  let w' := log (Insert uid) w in
  match uid with
  | Some (JStr u) =>
      let r := mkRow (fresh_id (rows w)) u st sched None in
      (Data r, mkWorld (rows w ++ [r]) (trace w'))
  | _ => (Error invalid_text_representation, w')
  end.

(** The columns [cancel_deletion] sets. *)
Definition set_cancelled (at_ : time) (r : row) : row :=
  mkRow (id r) (user_id r) cancelled (scheduled_deletion_at r) (Some at_).

(** [.update({ status: 'cancelled', cancelled_at }).eq('user_id', uid)
     .eq('status', st).select().single()], where [key] is the text the
    client has written for [uid] in the filter: with exactly one matching
    row the row is updated and returned; with none or several PostgREST
    answers PGRST116 and rolls the update back. *)
Definition update_single (at_ : time) (uid : value) (key : string)
    (st : row_status) (w : world) : result row * world :=
  let w' := log (Update uid st) w in
  match matching key st (rows w) with
  | [r] =>
      (Data (set_cancelled at_ r),
       mkWorld (map (fun x => if matches key st x
                              then set_cancelled at_ x else x) (rows w))
               (trace w'))
  | _ => (Error PGRST116, w')
  end.

End Storage.
Import Storage.

(* ------------------------------------------------------------------ *)
(** ** Requests and responses *)

Module Http.

(** What [await req.json()] does with the body: it rejects with a
  [SyntaxError] when the body is not JSON text, and resolves to the parsed
  document otherwise. *)
Inductive parsed : Type :=
| NotJson (message : string)
| Json (v : json).

Record request : Type := mkRequest {
  method : string;
  json_body : parsed
}.

(** The object handed to [JSON.stringify] for the response body. *)
Inductive payload : Type :=
| ErrorBody (error : string)
| ConflictBody (error : string) (existing_request : row)
| SuccessBody (message : string) (deletion_request : row)
| StatusBody (has_pending_request : bool) (deletion_request : option row).

Record response : Type := mkResponse {
  status : nat;
  headers : list (string * string);
  body : option payload
}.

Fixpoint header (k : string) (hs : list (string * string)) : option string :=
  match hs with
  | [] => None
  | (k', v) :: rest => if String.eqb k' k then Some v else header k rest
  end.

End Http.
Import Http.

(* ------------------------------------------------------------------ *)
(** ** The handler *)

Module Handler.

(** What a [throw] carries.  The [catch] clause only asks whether the value
  is an [Error] instance and, if so, for its [message]; the error object of
  a storage result is a plain object. *)
Inductive thrown : Type :=
| ErrorInstance (message : string)
| StorageError (e : pg_error).

Inductive outcome (A : Type) : Type :=
| Return (a : A)
| Throw (e : thrown).
Arguments Return {A} a.
Arguments Throw {A} e.

(** A computation of the handler: it runs against the storage and either
  returns or throws. *)
Definition M (A : Type) : Type := world -> outcome A * world.

Definition ret {A} (a : A) : M A := fun w => (Return a, w).

Definition throw {A} (e : thrown) : M A := fun w => (Throw e, w).

Definition bind {A B} (m : M A) (k : A -> M B) : M B :=
  fun w =>
    match m w with
    | (Return a, w') => k a w'
    | (Throw e, w') => (Throw e, w')
    end.

(** [await] of a storage call: the call never throws, it answers with
  [{ data, error }]. *)
Definition await {A} (call : world -> result A * world) : M (result A) :=
  fun w => let (r, w') := call w in (Return r, w').

Definition try_catch {A} (m : M A) (handler : thrown -> M A) : M A :=
  fun w =>
    match m w with
    | (Return a, w') => (Return a, w')
    | (Throw e, w') => handler e w'
    end.

Notation "x <- m ;; k" := (bind m (fun x => k))
  (at level 61, m at next level, right associativity).

Definition corsHeaders : list (string * string) :=
  [ ("Access-Control-Allow-Origin", "*");
    ("Access-Control-Allow-Headers",
     "authorization, x-client-info, apikey, content-type") ].

(** [{ ...corsHeaders, 'Content-Type': 'application/json' }] *)
Definition jsonHeaders : list (string * string) :=
  corsHeaders ++ [ ("Content-Type", "application/json") ].

(** [new Response(JSON.stringify(p), { status, headers })] *)
Definition json_response (status : nat) (p : payload) : response :=
  mkResponse status jsonHeaders (Some p).

(** [await req.json()] *)
Definition req_json (req : request) : M json :=
  match json_body req with
  | NotJson msg => throw (ErrorInstance msg)
  | Json v => ret v
  end.

(** [const { action, user_id } = v]: destructuring [null] throws a
  [TypeError]. *)
Definition destructure (v : json) : M (value * value) :=
  match v with
  | JNull =>
      throw (ErrorInstance
               "Cannot destructure property 'action' of 'null' as it is null.")
  | _ => ret (prop v "action", prop v "user_id")
  end.

(** A substitution [${x}] of a template literal: [ToString(x)], which can
  throw a [TypeError]. *)
Definition substitute (x : value) : M string :=
  match to_text x with
  | Some s => ret s
  | None => throw (ErrorInstance "Cannot convert object to primitive value")
  end.

(** [console.log(line)]: the console is no part of the state. *)
Definition console_log (line : string) : M unit := ret tt.

(** The argument of [.eq('user_id', value)]: the client writes the filter
  as the template literal [eq.${value}]. *)
Definition eq_value (x : value) : M string := substitute x.

(** The [request_deletion] branch. *)
Definition request_deletion (user_id : value) (now : time) : M response :=
  key <- eq_value user_id ;;
  check <- await (select_maybeSingle user_id key pending) ;;
  match check with
  | Error checkError => throw (StorageError checkError)
  | Data (Some existingRequest) =>
      ret (json_response 400
             (ConflictBody "A deletion request is already pending"
                           existingRequest))
  | Data None =>
      let scheduledDeletionAt := setDate now (getDate now + 3) in
      ins <- await (insert_single user_id scheduledDeletionAt pending) ;;
      match ins with
      | Error insertError => throw (StorageError insertError)
      | Data newRequest =>
          ret (json_response 200
                 (SuccessBody "Account deletion scheduled" newRequest))
      end
  end.

(** The [cancel_deletion] branch. *)
Definition cancel_deletion (user_id : value) (now : time) : M response :=
  key <- eq_value user_id ;;
  upd <- await (update_single now user_id key pending) ;;
  match upd with
  | Error cancelError =>
      if String.eqb (Storage.code cancelError) "PGRST116"
      then ret (json_response 404
                  (ErrorBody "No pending deletion request found"))
      else throw (StorageError cancelError)
  | Data cancelledRequest =>
      ret (json_response 200
             (SuccessBody "Account deletion cancelled" cancelledRequest))
  end.

(** The [get_status] branch. *)
Definition get_status (user_id : value) : M response :=
  key <- eq_value user_id ;;
  st <- await (select_maybeSingle user_id key pending) ;;
  match st with
  | Error statusError => throw (StorageError statusError)
  | Data request =>
      ret (json_response 200
             (StatusBody (match request with Some _ => true | None => false end)
                         request))
  end.

(** The body of the [try] block. *)
Definition dispatch (req : request) (now : time) : M response :=
  v <- req_json req ;;
  au <- destructure v ;;
  let (action, user_id) := au in
  if negb (truthy user_id) then
    ret (json_response 400 (ErrorBody "user_id is required"))
  else
  a <- substitute action ;;
  u <- substitute user_id ;;
  _ <- console_log ("Account deletion action: " ++ a
                    ++ " for user: " ++ u)%string ;;
  if strict_eq_str action "request_deletion" then
    request_deletion user_id now
  else if strict_eq_str action "cancel_deletion" then
    cancel_deletion user_id now
  else if strict_eq_str action "get_status" then
    get_status user_id
  else
    ret (json_response 400
           (ErrorBody
              "Invalid action. Use: request_deletion, cancel_deletion, or get_status")).

(** The [catch] clause. *)
Definition on_error (error : thrown) : M response :=
  let errorMessage :=
    match error with
    | ErrorInstance message => message
    | StorageError _ => "An unexpected error occurred"
    end in
  ret (json_response 500 (ErrorBody errorMessage)).

(** The function given to [Deno.serve]; [now] is what [new Date()] reads
  during the invocation. *)
Definition serve (req : request) (now : time) : M response :=
  if String.eqb (method req) "OPTIONS" then
    ret (mkResponse 200 corsHeaders None)
  else
    try_catch (dispatch req now) on_error.

(** One invocation against the storage: the response sent and the storage
  afterwards.  [serve] catches whatever is thrown, so the last case does
  not arise; it answers like the runtime does for an uncaught error. *)
Definition invoke (req : request) (now : time) (w : world) : response * world :=
  match serve req now w with
  | (Return r, w') => (r, w')
  | (Throw _, w') => (mkResponse 500 [] None, w')
  end.

End Handler.
Import Handler.

(* ------------------------------------------------------------------ *)
(** ** The business profile page

  The page component of the same file: the category badge, the loader
  [fetchBusinessData] and the follow button's [handleFollow].  A handler of
  the component is a function from the component state it sees to the
  state its setters leave, with the effects it has besides.  The table
  [business_follows], which the page both reads and writes, is a list of
  rows; the results of the queries on tables the page only reads are
  arguments of the loader.  The client resolves every call with
  [{ data, error }]; it does not reject. *)

Module BusinessProfile.

Record CategoryInfo : Type := mkCategoryInfo { label : string; icon : string }.

Definition CATEGORY_INFO : list (string * CategoryInfo) :=
  [ ("food", mkCategoryInfo "Food & Beverages" "🍔");
    ("tech", mkCategoryInfo "Technology" "💻");
    ("handmade", mkCategoryInfo "Handmade" "🎨");
    ("services", mkCategoryInfo "Services" "🛠️");
    ("agriculture", mkCategoryInfo "Agriculture" "🌾");
    ("retail", mkCategoryInfo "Retail" "🛍️");
    ("education", mkCategoryInfo "Education" "📚");
    ("health", mkCategoryInfo "Health" "💊");
    ("finance", mkCategoryInfo "Finance" "💰");
    ("other", mkCategoryInfo "Other" "📦") ].

(** The names every object inherits from [Object.prototype]. *)
Definition object_prototype_names : list string :=
  [ "constructor"; "hasOwnProperty"; "isPrototypeOf"; "propertyIsEnumerable";
    "toLocaleString"; "toString"; "valueOf"; "__proto__";
    "__defineGetter__"; "__defineSetter__";
    "__lookupGetter__"; "__lookupSetter__" ].

(** What [CATEGORY_INFO[key]] evaluates to: an entry of the table, a member
  inherited from [Object.prototype] (truthy, and without [label] or
  [icon]), or [undefined]. *)
Inductive member : Type :=
| Own (info : CategoryInfo)
| Inherited
| Undefined.

Fixpoint own (key : string) (table : list (string * CategoryInfo))
  : option CategoryInfo :=
  match table with
  | [] => None
  | (k, info) :: rest => if String.eqb k key then Some info else own key rest
  end.

Definition get (key : string) : member :=
  match own key CATEGORY_INFO with
  | Some info => Own info
  | None =>
      if existsb (String.eqb key) object_prototype_names
      then Inherited else Undefined
  end.

(** [CATEGORY_INFO[business.category] || CATEGORY_INFO.other] *)
Definition categoryInfo (category : string) : member :=
  match get category with
  | Undefined => get "other"
  | found => found
  end.

(** The label the badge renders; [None] when [categoryInfo.label] is
  [undefined]. *)
Definition badge_label (category : string) : option string :=
  match categoryInfo category with
  | Own info => Some (label info)
  | _ => None
  end.

Record BusinessData : Type := mkBusinessData {
  id : string;
  name : string;
  description : option string;
  category : string;
  logo_url : option string;
  cover_image_url : option string;
  location : option string;
  website_url : option string;
  instagram_link : option string;
  youtube_link : option string;
  owner_id : option string;
  created_at : option string
}.

(** A row of [business_follows]; the storage generates [follow_id]. *)
Record follow : Type := mkFollow {
  follow_id : nat;
  business_id : string;
  user_id : string
}.

Section Page.

(** The rows of [posts] and [business_images] pass through the page as
  they come. *)
Variables Post BusinessImage : Type.

(** The [useState] cells of the component. *)
Record state : Type := mkState {
  business : option BusinessData;
  posts : list Post;
  images : list BusinessImage;
  followerCount : Z;
  isFollowing : bool;
  loading : bool;
  followLoading : bool
}.

Inductive effect : Type :=
| Navigate (path : string)
| Toast (title variant : string)
| ConsoleError (message : string).

Definition setBusiness (b : option BusinessData) (s : state) : state :=
  mkState b (posts s) (images s) (followerCount s) (isFollowing s)
          (loading s) (followLoading s).
Definition setPosts (p : list Post) (s : state) : state :=
  mkState (business s) p (images s) (followerCount s) (isFollowing s)
          (loading s) (followLoading s).
Definition setImages (i : list BusinessImage) (s : state) : state :=
  mkState (business s) (posts s) i (followerCount s) (isFollowing s)
          (loading s) (followLoading s).
Definition setFollowerCount (f : Z -> Z) (s : state) : state :=
  mkState (business s) (posts s) (images s) (f (followerCount s))
          (isFollowing s) (loading s) (followLoading s).
Definition setIsFollowing (b : bool) (s : state) : state :=
  mkState (business s) (posts s) (images s) (followerCount s) b
          (loading s) (followLoading s).
Definition setLoading (b : bool) (s : state) : state :=
  mkState (business s) (posts s) (images s) (followerCount s)
          (isFollowing s) b (followLoading s).
Definition setFollowLoading (b : bool) (s : state) : state :=
  mkState (business s) (posts s) (images s) (followerCount s)
          (isFollowing s) (loading s) b.

(** [!id] for the route parameter, a string or [undefined]. *)
Definition no_id (id : option string) : bool :=
  match id with
  | None => true
  | Some i => String.eqb i ""
  end.

(** [.eq('business_id', b)] and [.eq('business_id', b).eq('user_id', u)] *)
Definition of_business (b : string) (t : list follow) : list follow :=
  filter (fun r => String.eqb (business_id r) b) t.

Definition of_pair (b u : string) (t : list follow) : list follow :=
  filter (fun r => String.eqb (business_id r) b
                   && String.eqb (user_id r) u) t.

(** [.select('*', { count: 'exact', head: true }).eq('business_id', b)] *)
Definition count_follows (b : string) (t : list follow) : Z :=
  Z.of_nat (List.length (of_business b t)).

(** [.select('id').eq('business_id', b).eq('user_id', u).single()]: the
  [data], which is [null] unless exactly one row matches. *)
Definition followCheck (b u : string) (t : list follow) : option nat :=
  match of_pair b u t with
  | [r] => Some (follow_id r)
  | _ => None
  end.

(** [.delete().eq('business_id', b).eq('user_id', u)] *)
Definition delete_follow (b u : string) (t : list follow) : list follow :=
  filter (fun r => negb (String.eqb (business_id r) b
                         && String.eqb (user_id r) u)) t.

(** [.insert({ business_id: b, user_id: u })] *)
Definition insert_follow (b u : string) (t : list follow) : list follow :=
  t ++ [mkFollow (S (list_max (map follow_id t))) b u].

(** [fetchBusinessData]: [user] is the signed-in user's id, [id] the route
  parameter; [businessResult], [postsData] and [imagesData] are what the
  queries on [businesses], [posts] and [business_images] resolve to. *)
Definition fetchBusinessData (user : option string) (id : option string)
    (businessResult : result BusinessData)
    (postsData : option (list Post))
    (imagesData : option (list BusinessImage))
    (t : list follow) (s : state) : state * list effect :=
  match id with
  | None => (s, [])
  | Some i =>
      if String.eqb i "" then (s, [])
      else
        let s := setLoading true s in
        match businessResult with
        | Error businessError =>
            (setLoading false s,
             [ConsoleError "Error fetching business:";
              Toast "Error loading business" "destructive"])
        | Data businessData =>
            let s := setBusiness (Some businessData) s in
            let s := setPosts (match postsData with
                               | Some p => p
                               | None => []
                               end) s in
            let s := setImages (match imagesData with
                                | Some p => p
                                | None => []
                                end) s in
            let count := count_follows i t in
            let s := setFollowerCount (fun _ => count) s in
            let s := match user with
                     | Some u =>
                         setIsFollowing
                           (match followCheck i u t with
                            | Some _ => true
                            | None => false
                            end) s
                     | None => s
                     end in
            (setLoading false s, [])
        end
  end.

(** [handleFollow]: the click on the follow button, seeing the state [s]
  of the render it belongs to. *)
Definition handleFollow (user : option string) (id : option string)
    (t : list follow) (s : state) : state * list follow * list effect :=
  match user with
  | None => (s, t, [Navigate "/auth"])
  | Some u =>
      if no_id id then (s, t, [Navigate "/auth"])
      else
        let i := match id with Some i => i | None => "" end in
        let s := setFollowLoading true s in
        if isFollowing s then
          let t := delete_follow i u t in
          let s := setIsFollowing false s in
          let s := setFollowerCount (fun prev => prev - 1)%Z s in
          (setFollowLoading false s, t, [])
        else
          let t := insert_follow i u t in
          let s := setIsFollowing true s in
          let s := setFollowerCount (fun prev => prev + 1)%Z s in
          (setFollowLoading false s, t, [])
  end.

(** [isOwner]: [user?.id === business?.owner_id], where a missing user or
  business gives [undefined] and a business without owner gives [null]. *)
Definition isOwner (user : option string) (s : state) : bool :=
  match user, business s with
  | None, None => true
  | Some u, Some b =>
      match owner_id b with
      | Some o => String.eqb u o
      | None => false
      end
  | _, _ => false
  end.

(** The follow state and the table agree: the count shown is the number of
  follow rows of the business, and the button shows "Unfollow" exactly
  when the user has one follow row for it. *)
Definition in_sync (b u : string) (t : list follow) (s : state) : Prop :=
  followerCount s = count_follows b t
  /\ isFollowing s = Nat.eqb (List.length (of_pair b u t)) 1.

End Page.

Arguments mkState {Post BusinessImage}.
Arguments business {Post BusinessImage} s.
Arguments posts {Post BusinessImage} s.
Arguments images {Post BusinessImage} s.
Arguments followerCount {Post BusinessImage} s.
Arguments isFollowing {Post BusinessImage} s.
Arguments loading {Post BusinessImage} s.
Arguments followLoading {Post BusinessImage} s.
Arguments fetchBusinessData {Post BusinessImage}.
Arguments handleFollow {Post BusinessImage}.
Arguments isOwner {Post BusinessImage}.
Arguments in_sync {Post BusinessImage}.

End BusinessProfile.

(* ------------------------------------------------------------------ *)
(** ** Vocabulary of the statements *)

(** [req] is a call of action [a] for the user [u]: it is not a preflight,
  its body parses to a document whose [action] is the string [a] and whose
  [user_id] is the non-empty string [u]. *)
Definition calls (req : request) (a u : string) : Prop :=
  method req <> "OPTIONS" /\ u <> "" /\
  exists v, json_body req = Json v /\
            prop v "action" = Some (JStr a) /\
            prop v "user_id" = Some (JStr u).

(** The usual shape of such a call. *)
Definition post (a u : string) : request :=
  mkRequest "POST" (Json (JObj [("action", JStr a); ("user_id", JStr u)])).

(** A table to run the handler on: a cancelled request of [u1] and a
  pending request of [u2]. *)
Definition sample_rows : table :=
  [ mkRow 1 "u1" cancelled 500%Z (Some 600%Z);
    mkRow 2 "u2" pending 700%Z None ].

Definition sample : world := mkWorld sample_rows [].

(** A business, its follow rows and a page state to run the page on. *)
Definition sample_business : BusinessProfile.BusinessData :=
  BusinessProfile.mkBusinessData
    "b1" "Bakery" None "food" None None None None None None (Some "u7") None.

Definition sample_follows : list BusinessProfile.follow :=
  [ BusinessProfile.mkFollow 1 "b1" "u9" ].

Definition sample_page : BusinessProfile.state unit unit :=
  BusinessProfile.mkState None [] [] 1%Z false false false.

(** The [user_id] the destructuring of the body binds; [undefined] when
  there is no document to destructure. *)
Definition requested_user (req : request) : value :=
  match json_body req with
  | Json v => prop v "user_id"
  | NotJson _ => None
  end.

(** The rows of [u] that are pending. *)
Definition pending_of (u : string) (t : table) : list row :=
  matching u pending t.

(** The invariant of the data model: at most one pending row per user. *)
Definition at_most_one_pending (t : table) : Prop :=
  forall u, (List.length (pending_of u t) <= 1)%nat.

(** The same, decided on the users that occur in the table. *)
Definition at_most_one_pendingb (t : table) : bool :=
  forallb (fun r => Nat.leb (List.length (pending_of (user_id r) t)) 1) t.


(** The rows a response body shows to the caller. *)
Definition shown_rows (resp : response) : list row :=
  match body resp with
  | Some (ConflictBody _ r) => [r]
  | Some (SuccessBody _ r) => [r]
  | Some (StatusBody _ (Some r)) => [r]
  | _ => []
  end.

(** [action] is none of the three actions of the endpoint. *)
Definition unknown_action (action : value) : bool :=
  negb (strict_eq_str action "request_deletion")
  && negb (strict_eq_str action "cancel_deletion")
  && negb (strict_eq_str action "get_status").

(** Input the endpoint has no use for: a body that is not JSON, the
  document [null], a missing [user_id] or an unknown [action]. *)
Definition malformed_or_unknown (req : request) : bool :=
  match json_body req with
  | NotJson _ => true
  | Json JNull => true
  | Json v => negb (truthy (prop v "user_id"))
              || unknown_action (prop v "action")
  end.

(** The [action] the destructuring of the body binds. *)
Definition requested_action (req : request) : value :=
  match json_body req with
  | Json v => prop v "action"
  | NotJson _ => None
  end.

(** Every way an invocation can end, given the [action] and [user_id] of
  the request and the time read: the response sent and the storage
  afterwards.  The key of a filter is the text of the [user_id]. *)
Inductive served (now : time) (act uid : value) (w : world)
  : response -> world -> Prop :=
| sv_preflight :
    served now act uid w (mkResponse 200 corsHeaders None) w
| sv_thrown (msg : string) :
    served now act uid w (json_response 500 (ErrorBody msg)) w
| sv_no_user :
    truthy uid = false ->
    served now act uid w
      (json_response 400 (ErrorBody "user_id is required")) w
| sv_unknown :
    truthy uid = true ->
    unknown_action act = true ->
    served now act uid w
      (json_response 400
         (ErrorBody
            "Invalid action. Use: request_deletion, cancel_deletion, or get_status"))
      w
| sv_select_error (u : string) :
    truthy uid = true ->
    strict_eq_str act "request_deletion" = true
    \/ strict_eq_str act "get_status" = true ->
    to_text uid = Some u ->
    (2 <= List.length (matching u pending (rows w)))%nat ->
    served now act uid w
      (json_response 500 (ErrorBody "An unexpected error occurred"))
      (log (Select uid pending) w)
| sv_conflict (u : string) (r : row) :
    strict_eq_str act "request_deletion" = true ->
    to_text uid = Some u ->
    matching u pending (rows w) = [r] ->
    served now act uid w
      (json_response 400
         (ConflictBody "A deletion request is already pending" r))
      (log (Select uid pending) w)
| sv_created (u : string) (r : row) :
    strict_eq_str act "request_deletion" = true ->
    uid = Some (JStr u) ->
    matching u pending (rows w) = [] ->
    r = mkRow (fresh_id (rows w)) u pending (now + 259200000)%Z None ->
    served now act uid w
      (json_response 200 (SuccessBody "Account deletion scheduled" r))
      (mkWorld (rows w ++ [r])
               ((trace w ++ [Select uid pending]) ++ [Insert uid]))
| sv_insert_refused (u : string) :
    strict_eq_str act "request_deletion" = true ->
    to_text uid = Some u ->
    matching u pending (rows w) = [] ->
    (forall k, uid <> Some (JStr k)) ->
    served now act uid w
      (json_response 500 (ErrorBody "An unexpected error occurred"))
      (mkWorld (rows w)
               ((trace w ++ [Select uid pending]) ++ [Insert uid]))
| sv_status (u : string) (found : option row) :
    strict_eq_str act "get_status" = true ->
    to_text uid = Some u ->
    (List.length (matching u pending (rows w)) <= 1)%nat ->
    found = hd_error (matching u pending (rows w)) ->
    served now act uid w
      (json_response 200
         (StatusBody (match found with Some _ => true | None => false end)
                     found))
      (log (Select uid pending) w)
| sv_not_found (u : string) :
    strict_eq_str act "cancel_deletion" = true ->
    to_text uid = Some u ->
    List.length (matching u pending (rows w)) <> 1%nat ->
    served now act uid w
      (json_response 404 (ErrorBody "No pending deletion request found"))
      (log (Update uid pending) w)
| sv_cancelled (u : string) (r : row) :
    strict_eq_str act "cancel_deletion" = true ->
    to_text uid = Some u ->
    matching u pending (rows w) = [r] ->
    served now act uid w
      (json_response 200
         (SuccessBody "Account deletion cancelled" (set_cancelled now r)))
      (mkWorld (map (fun x => if matches u pending x
                              then set_cancelled now x else x) (rows w))
               (trace w ++ [Update uid pending])).

(** Whether a template literal can print the value. *)
Definition printable (x : value) : bool :=
  match to_text x with
  | Some _ => true
  | None => false
  end.

(** How a stored row can differ after an invocation that read the time
  [now]: not at all, or it was pending and has been cancelled at [now]. *)
Definition evolves (now : time) (r r' : row) : Prop :=
  r' = r
  \/ (Storage.status r = pending
      /\ r' = mkRow (id r) (user_id r) cancelled (scheduled_deletion_at r)
                    (Some now)).

(** A sequence of invocations, one after the other, each with the time it
  reads. *)
Fixpoint run (invocations : list (request * time)) (w : world) : world :=
  match invocations with
  | [] => w
  | (req, now) :: rest => run rest (snd (invoke req now w))
  end.

(** Whether the JSON object of the response body has an [error] field. *)
Definition has_error_field (resp : response) : bool :=
  match body resp with
  | Some (ErrorBody _) | Some (ConflictBody _ _) => true
  | Some (SuccessBody _ _) | Some (StatusBody _ _) | None => false
  end.

(* ------------------------------------------------------------------ *)
(** ** Dates: three days later *)

Lemma setDate_getDate_plus (t : time) (k : Z) :
  setDate t (getDate t + k) = (t + k * msPerDay)%Z.
Proof.
  unfold setDate, getDate, MakeDay_in_month_of, MakeDate, TimeWithinDay, Day.
  generalize (DateFromTime t); intro d.
  assert (E : (t = msPerDay * (t / msPerDay) + t mod msPerDay)%Z)
    by (apply Z.div_mod; unfold msPerDay; lia).
  lia.
Qed.

Lemma three_days_later (now : time) :
  setDate now (getDate now + 3) = (now + 259200000)%Z.
Proof. rewrite setDate_getDate_plus. unfold msPerDay. lia. Qed.

(* ------------------------------------------------------------------ *)
(** ** Filters over the table *)

Lemma status_eqb_eq (a b : row_status) : status_eqb a b = true <-> a = b.
Proof. destruct a, b; simpl; split; congruence. Qed.

Lemma matches_spec (u : string) (st : row_status) (r : row) :
  matches u st r = true <-> user_id r = u /\ Storage.status r = st.
Proof.
  unfold matches. rewrite andb_true_iff, String.eqb_eq, status_eqb_eq.
  reflexivity.
Qed.

Lemma matching_In (u : string) (st : row_status) (t : table) (r : row) :
  In r (matching u st t) <-> In r t /\ user_id r = u /\ Storage.status r = st.
Proof. unfold matching. rewrite filter_In, matches_spec. reflexivity. Qed.

Lemma matching_nil (u : string) (st : row_status) (t : table) :
  matching u st t = [] <->
  (forall r, In r t -> user_id r = u -> Storage.status r <> st).
Proof.
  split.
  - intros E r Hin Hu Hs.
    assert (H : In r (matching u st t)) by (apply matching_In; auto).
    rewrite E in H. exact H.
  - intros H. destruct (matching u st t) as [|r l] eqn:E; [reflexivity|].
    assert (Hr : In r (matching u st t)) by (rewrite E; left; reflexivity).
    apply matching_In in Hr. destruct Hr as (Hin & Hu & Hs).
    exfalso. exact (H r Hin Hu Hs).
Qed.

Lemma matching_app (u : string) (st : row_status) (t1 t2 : table) :
  matching u st (t1 ++ t2) = matching u st t1 ++ matching u st t2.
Proof. unfold matching. apply filter_app. Qed.

(** A filter that keeps exactly one element splits the list around it. *)
Lemma filter_singleton {A} (f : A -> bool) (l : list A) (x : A) :
  filter f l = [x] ->
  exists l1 l2, l = l1 ++ x :: l2 /\ filter f l1 = [] /\ filter f l2 = [].
Proof.
  induction l as [|a l IH]; simpl; intros E; [discriminate|].
  destruct (f a) eqn:Fa.
  - injection E as -> El. exists [], l. simpl. auto.
  - destruct (IH E) as (l1 & l2 & -> & E1 & E2).
    exists (a :: l1), l2. simpl. rewrite Fa. auto.
Qed.

(** Under the invariant a pending row of [u] is the only one. *)
Lemma the_pending_row (t : table) (u : string) (r : row) :
  at_most_one_pending t ->
  In r t -> user_id r = u -> Storage.status r = pending ->
  matching u pending t = [r].
Proof.
  intros Inv Hin Hu Hs.
  assert (H : In r (matching u pending t)) by (apply matching_In; auto).
  specialize (Inv u). unfold pending_of in Inv.
  destruct (matching u pending t) as [|a [|b l]]; simpl in *.
  - contradiction.
  - destruct H as [->|[]]. reflexivity.
  - lia.
Qed.

Lemma at_most_one_pendingb_spec (t : table) :
  at_most_one_pendingb t = true -> at_most_one_pending t.
Proof.
  unfold at_most_one_pendingb, at_most_one_pending. intros H u.
  destruct (pending_of u t) as [|r l] eqn:E; [simpl; lia|].
  assert (Hr : In r (pending_of u t)) by (rewrite E; left; reflexivity).
  apply matching_In in Hr. destruct Hr as (Hin & Hu & _).
  rewrite forallb_forall in H. specialize (H r Hin).
  rewrite Hu, E in H. apply Nat.leb_le in H. exact H.
Qed.

(* ------------------------------------------------------------------ *)
(** ** From the entry point to the branches *)

Lemma calls_post (a u : string) : u <> "" -> calls (post a u) a u.
Proof.
  intros Hu. split; [discriminate|]. split; [exact Hu|].
  eexists. split; [reflexivity|]. simpl. auto.
Qed.

Lemma calls_user (req : request) (a u : string) :
  calls req a u -> requested_user req = Some (JStr u).
Proof.
  intros (_ & _ & v & Hb & _ & Hu). unfold requested_user.
  rewrite Hb. exact Hu.
Qed.

(** A call passes the preflight test, the parse, the destructuring and the
  [user_id] guard, and reaches the chain of comparisons on [action]. *)
Lemma serve_calls (req : request) (a u : string) (now : time) (w : world) :
  calls req a u ->
  serve req now w =
  try_catch
    (if strict_eq_str (Some (JStr a)) "request_deletion" then
       request_deletion (Some (JStr u)) now
     else if strict_eq_str (Some (JStr a)) "cancel_deletion" then
       cancel_deletion (Some (JStr u)) now
     else if strict_eq_str (Some (JStr a)) "get_status" then
       get_status (Some (JStr u))
     else
       ret (json_response 400
              (ErrorBody
                 "Invalid action. Use: request_deletion, cancel_deletion, or get_status")))
    on_error w.
Proof.
  intros (Hm & Hu & v & Hb & Ha & Hid).
  unfold serve. apply String.eqb_neq in Hm. rewrite Hm.
  unfold try_catch, dispatch, bind, req_json. rewrite Hb.
  unfold ret at 1.
  destruct v; try discriminate Ha.
  unfold destructure, ret at 1. rewrite Ha, Hid.
  apply String.eqb_neq in Hu.
  unfold truthy. rewrite Hu. reflexivity.
Qed.

Lemma invoke_request_deletion (req : request) (u : string) (now : time)
    (w : world) :
  calls req "request_deletion" u ->
  invoke req now w =
  match try_catch (request_deletion (Some (JStr u)) now) on_error w with
  | (Return r, w') => (r, w')
  | (Throw _, w') => (mkResponse 500 [] None, w')
  end.
Proof. intros H. unfold invoke. rewrite (serve_calls req _ u now w H). reflexivity. Qed.

Lemma invoke_cancel_deletion (req : request) (u : string) (now : time)
    (w : world) :
  calls req "cancel_deletion" u ->
  invoke req now w =
  match try_catch (cancel_deletion (Some (JStr u)) now) on_error w with
  | (Return r, w') => (r, w')
  | (Throw _, w') => (mkResponse 500 [] None, w')
  end.
Proof. intros H. unfold invoke. rewrite (serve_calls req _ u now w H). reflexivity. Qed.

Lemma invoke_get_status (req : request) (u : string) (now : time)
    (w : world) :
  calls req "get_status" u ->
  invoke req now w =
  match try_catch (get_status (Some (JStr u))) on_error w with
  | (Return r, w') => (r, w')
  | (Throw _, w') => (mkResponse 500 [] None, w')
  end.
Proof. intros H. unfold invoke. rewrite (serve_calls req _ u now w H). reflexivity. Qed.

(** *** What each branch does, by the number of pending rows of the user *)

Lemma request_deletion_absent (u : string) (now : time) (w : world) :
  matching u pending (rows w) = [] ->
  let r := mkRow (fresh_id (rows w)) u pending (now + 259200000)%Z None in
  request_deletion (Some (JStr u)) now w =
  (Return (json_response 200 (SuccessBody "Account deletion scheduled" r)),
   mkWorld (rows w ++ [r])
           (trace w ++ [Select (Some (JStr u)) pending]
                   ++ [Insert (Some (JStr u))])).
Proof.
  intros E r. unfold request_deletion, eq_value, substitute, bind, await,
    select_maybeSingle; cbn [to_text ToString]; unfold ret at 1.
  rewrite E. unfold insert_single, log, ret. simpl.
  rewrite three_days_later, <- app_assoc. reflexivity.
Qed.

Lemma request_deletion_present (u : string) (now : time) (w : world)
    (r : row) :
  matching u pending (rows w) = [r] ->
  request_deletion (Some (JStr u)) now w =
  (Return (json_response 400
             (ConflictBody "A deletion request is already pending" r)),
   log (Select (Some (JStr u)) pending) w).
Proof.
  intros E. unfold request_deletion, eq_value, substitute, bind, await,
    select_maybeSingle; cbn [to_text ToString]; unfold ret at 1.
  rewrite E. reflexivity.
Qed.

Lemma cancel_deletion_present (u : string) (now : time) (w : world)
    (r : row) :
  matching u pending (rows w) = [r] ->
  cancel_deletion (Some (JStr u)) now w =
  (Return (json_response 200
             (SuccessBody "Account deletion cancelled" (set_cancelled now r))),
   mkWorld (map (fun x => if matches u pending x
                          then set_cancelled now x else x) (rows w))
           (trace w ++ [Update (Some (JStr u)) pending])).
Proof.
  intros E. unfold cancel_deletion, eq_value, substitute, bind, await,
    update_single; cbn [to_text ToString]; unfold ret at 1.
  rewrite E. reflexivity.
Qed.

Lemma cancel_deletion_absent (u : string) (now : time) (w : world) :
  matching u pending (rows w) = [] ->
  cancel_deletion (Some (JStr u)) now w =
  (Return (json_response 404 (ErrorBody "No pending deletion request found")),
   log (Update (Some (JStr u)) pending) w).
Proof.
  intros E. unfold cancel_deletion, eq_value, substitute, bind, await,
    update_single; cbn [to_text ToString]; unfold ret at 1.
  rewrite E. reflexivity.
Qed.

Lemma get_status_at_most_one (u : string) (w : world) :
  (List.length (matching u pending (rows w)) <= 1)%nat ->
  get_status (Some (JStr u)) w =
  (Return (json_response 200
             (StatusBody (match hd_error (matching u pending (rows w)) with
                          | Some _ => true
                          | None => false
                          end)
                         (hd_error (matching u pending (rows w))))),
   log (Select (Some (JStr u)) pending) w).
Proof.
  intros L. unfold get_status, eq_value, substitute, bind, await,
    select_maybeSingle; cbn [to_text ToString]; unfold ret at 1.
  destruct (matching u pending (rows w)) as [|a [|b l]]; simpl in *;
    try reflexivity; lia.
Qed.

(** *** Cancelling the pending rows of one user *)

Lemma cancel_map_split (u : string) (now : time) (l1 l2 : table) (r : row) :
  matching u pending l1 = [] -> matching u pending l2 = [] ->
  matches u pending r = true ->
  map (fun x => if matches u pending x then set_cancelled now x else x)
      (l1 ++ r :: l2)
  = l1 ++ set_cancelled now r :: l2.
Proof.
  intros E1 E2 Hr.
  assert (Id : forall l, matching u pending l = [] ->
                 map (fun x => if matches u pending x
                               then set_cancelled now x else x) l = l).
  { induction l as [|a l IH]; simpl; intros E; [reflexivity|].
    destruct (matches u pending a) eqn:Ma; [discriminate|].
    rewrite (IH E). reflexivity. }
  rewrite map_app. simpl. rewrite Hr, (Id l1 E1), (Id l2 E2). reflexivity.
Qed.

Lemma matching_after_cancel (u v : string) (now : time) (t : table) :
  matching v pending
    (map (fun x => if matches u pending x then set_cancelled now x else x) t)
  = if String.eqb v u then [] else matching v pending t.
Proof.
  unfold matching. induction t as [|a t IH]; simpl.
  - destruct (String.eqb v u); reflexivity.
  - destruct (matches u pending a) eqn:Ma.
    + assert (C : matches v pending (set_cancelled now a) = false)
        by (unfold matches; simpl; apply andb_false_r).
      rewrite C, IH.
      destruct (String.eqb v u) eqn:Evu; [reflexivity|].
      apply matches_spec in Ma. destruct Ma as (Hu & Hs).
      unfold matches. rewrite Hu, (String.eqb_sym u v), Evu. reflexivity.
    + rewrite IH.
      destruct (String.eqb v u) eqn:Evu; [|reflexivity].
      apply String.eqb_eq in Evu. subst v. rewrite Ma. reflexivity.
Qed.


Lemma fresh_id_new (t : table) (x : row) : In x t -> id x <> fresh_id t.
Proof.
  intros Hin. unfold fresh_id.
  assert (H : Forall (fun k => k <= list_max (map id t)) (map id t))
    by (apply list_max_le; lia).
  rewrite Forall_forall in H. specialize (H (id x) (in_map id t x Hin)). lia.
Qed.

(* ------------------------------------------------------------------ *)
(** ** request_deletion *)

(** C1.  For a user with no pending row, [request_deletion] appends exactly
  one row to the table: it belongs to the user, is [pending], is scheduled
  three days (259 200 000 ms) after the time read, has no [cancelled_at]
  and an [id] no stored row has; the response is the success response
  (status 200) carrying that row. *)
Theorem request_deletion_creates_pending_row
    (req : request) (u : string) (now : time) (w : world) :
  calls req "request_deletion" u ->
  pending_of u (rows w) = [] ->
  exists r,
    invoke req now w =
      (json_response 200 (SuccessBody "Account deletion scheduled" r),
       mkWorld (rows w ++ [r])
               (trace w ++ [Select (Some (JStr u)) pending;
                            Insert (Some (JStr u))]))
    /\ user_id r = u
    /\ Storage.status r = pending
    /\ scheduled_deletion_at r = (now + 3 * msPerDay)%Z
    /\ cancelled_at r = None
    /\ (forall x, In x (rows w) -> id x <> id r).
Proof.
  intros Hc Hnone.
  exists (mkRow (fresh_id (rows w)) u pending (now + 259200000)%Z None).
  rewrite (invoke_request_deletion req u now w Hc). unfold try_catch.
  rewrite (request_deletion_absent u now w Hnone). simpl.
  repeat split. intros x Hx. apply fresh_id_new. exact Hx.
Qed.

Lemma request_deletion_creates_pending_row_witness :
  exists r,
    invoke (post "request_deletion" "u1") 1000%Z sample
    = (json_response 200 (SuccessBody "Account deletion scheduled" r),
       mkWorld (sample_rows ++ [r])
               [Select (Some (JStr "u1")) pending; Insert (Some (JStr "u1"))])
    /\ r = mkRow 3 "u1" pending 259201000%Z None.
Proof.
  destruct (request_deletion_creates_pending_row
              (post "request_deletion" "u1") "u1" 1000%Z sample)
    as (r & E & _).
  - apply calls_post. discriminate.
  - reflexivity.
  - exists r. split; [exact E|].
    vm_compute in E. injection E as E _. symmetry. exact E.
Defined.

(* ------------------------------------------------------------------ *)
(** ** cancel_deletion without a pending row *)

(** C4.  For a user with no pending row, [cancel_deletion] answers 404
  "No pending deletion request found" and the table afterwards is the
  table before; the one access made is the filtered update, which matched
  nothing. *)
Theorem cancel_deletion_not_found
    (req : request) (u : string) (now : time) (w : world) :
  calls req "cancel_deletion" u ->
  pending_of u (rows w) = [] ->
  invoke req now w =
    (json_response 404 (ErrorBody "No pending deletion request found"),
     mkWorld (rows w) (trace w ++ [Update (Some (JStr u)) pending]))
  /\ rows (snd (invoke req now w)) = rows w.
Proof.
  intros Hc Hnone.
  rewrite (invoke_cancel_deletion req u now w Hc). unfold try_catch.
  rewrite (cancel_deletion_absent u now w Hnone). split; reflexivity.
Qed.

Lemma cancel_deletion_not_found_witness :
  invoke (post "cancel_deletion" "u1") 1000%Z sample
  = (json_response 404 (ErrorBody "No pending deletion request found"),
     mkWorld sample_rows [Update (Some (JStr "u1")) pending]).
Proof.
  apply (cancel_deletion_not_found
           (post "cancel_deletion" "u1") "u1" 1000%Z sample).
  - apply calls_post. discriminate.
  - reflexivity.
Defined.

(* ------------------------------------------------------------------ *)
(** ** The user_id guard *)

(** C7.  Whatever the method and whatever the [action] of the body, when
  the document's [user_id] is missing (or falsy) the invocation leaves the
  storage as it was, trace included: no read, no write.  Unless the request
  is a preflight, the response is 400 "user_id is required". *)
Theorem missing_user_id_rejected
    (m : string) (v : json) (now : time) (w : world) :
  v <> JNull ->
  truthy (prop v "user_id") = false ->
  snd (invoke (mkRequest m (Json v)) now w) = w
  /\ (m <> "OPTIONS" ->
      fst (invoke (mkRequest m (Json v)) now w)
      = json_response 400 (ErrorBody "user_id is required")).
Proof.
  intros Hv Hu. unfold invoke, serve. simpl.
  destruct (String.eqb m "OPTIONS") eqn:Em.
  - split; [reflexivity|]. intros Hm. apply String.eqb_eq in Em. contradiction.
  - unfold try_catch, dispatch, bind, req_json. simpl.
    destruct v; [congruence | ..]; simpl in *; try rewrite Hu; simpl;
      split; reflexivity.
Qed.

Lemma missing_user_id_rejected_witness :
  invoke (mkRequest "POST" (Json (JObj [("action", JStr "launch")])))
         1000%Z sample
  = (json_response 400 (ErrorBody "user_id is required"), sample).
Proof.
  destruct (missing_user_id_rejected
              "POST" (JObj [("action", JStr "launch")]) 1000%Z sample)
    as (Hw & Hr).
  - discriminate.
  - reflexivity.
  - rewrite (surjective_pairing (invoke _ _ _)), Hw, Hr;
      [reflexivity | discriminate].
Defined.

(* ------------------------------------------------------------------ *)
(** ** request_deletion with a pending row *)

Lemma matching_own_row (u : string) (n : nat) (at_ : time) :
  matching u pending [mkRow n u pending at_ None]
  = [mkRow n u pending at_ None].
Proof.
  unfold matching, matches. simpl. rewrite String.eqb_refl. reflexivity.
Qed.

(** C2.  In a table of the data model (at most one pending row per user),
  [request_deletion] for a user whose row [r] is pending answers 400
  "A deletion request is already pending" with [r] as [existing_request]
  and leaves the rows as they are.  And whatever the user's rows were, a
  second [request_deletion] right after a first one is answered with that
  conflict, inserts nothing, and leaves exactly one pending row of the
  user. *)
Theorem request_deletion_conflict
    (req : request) (u : string) (now : time) (w : world) :
  calls req "request_deletion" u ->
  at_most_one_pending (rows w) ->
  (forall r, In r (rows w) -> user_id r = u -> Storage.status r = pending ->
     invoke req now w =
       (json_response 400
          (ConflictBody "A deletion request is already pending" r),
        mkWorld (rows w) (trace w ++ [Select (Some (JStr u)) pending])))
  /\ (forall req2 now2,
        calls req2 "request_deletion" u ->
        let w1 := snd (invoke req now w) in
        exists r,
          invoke req2 now2 w1 =
            (json_response 400
               (ConflictBody "A deletion request is already pending" r),
             mkWorld (rows w1) (trace w1 ++ [Select (Some (JStr u)) pending]))
          /\ pending_of u (rows (snd (invoke req2 now2 w1))) = [r]).
Proof.
  intros Hc Inv. split.
  - intros r Hin Hu Hs.
    rewrite (invoke_request_deletion req u now w Hc). unfold try_catch.
    rewrite (request_deletion_present u now w r
               (the_pending_row (rows w) u r Inv Hin Hu Hs)).
    reflexivity.
  - intros req2 now2 Hc2 w1.
    assert (E1 : exists r, matching u pending (rows w1) = [r]).
    { subst w1. rewrite (invoke_request_deletion req u now w Hc).
      unfold try_catch. specialize (Inv u). unfold pending_of in Inv.
      destruct (matching u pending (rows w)) as [|a [|b l]] eqn:E.
      - rewrite (request_deletion_absent u now w E). simpl.
        rewrite matching_app, E, matching_own_row. simpl. eauto.
      - rewrite (request_deletion_present u now w a E). simpl. eauto.
      - simpl in Inv. lia. }
    destruct E1 as (r & E1). exists r.
    rewrite (invoke_request_deletion req2 u now2 w1 Hc2). unfold try_catch.
    rewrite (request_deletion_present u now2 w1 r E1). simpl.
    split; [reflexivity | exact E1].
Qed.

Lemma request_deletion_conflict_witness :
  invoke (post "request_deletion" "u2") 1000%Z sample
  = (json_response 400
       (ConflictBody "A deletion request is already pending"
                     (mkRow 2 "u2" pending 700%Z None)),
     mkWorld sample_rows [Select (Some (JStr "u2")) pending]).
Proof.
  destruct (request_deletion_conflict
              (post "request_deletion" "u2") "u2" 1000%Z sample)
    as (H & _).
  - apply calls_post. discriminate.
  - apply at_most_one_pendingb_spec. reflexivity.
  - apply (H (mkRow 2 "u2" pending 700%Z None)).
    + simpl. auto.
    + reflexivity.
    + reflexivity.
Defined.

(* ------------------------------------------------------------------ *)
(** ** cancel_deletion with a pending row *)

(** C3.  In a table of the data model, [cancel_deletion] for a user whose
  row [r] is pending replaces [r], in place, by [r] with status
  [cancelled] and [cancelled_at] the time read, touches no other row, and
  answers 200 "Account deletion cancelled" with the updated row; a
  [get_status] for the user on the table so obtained answers
  [has_pending_request: false] with no row. *)
Theorem cancel_deletion_cancels
    (req : request) (u : string) (now : time) (w : world) (r : row) :
  calls req "cancel_deletion" u ->
  at_most_one_pending (rows w) ->
  In r (rows w) -> user_id r = u -> Storage.status r = pending ->
  let r' := mkRow (id r) (user_id r) cancelled (scheduled_deletion_at r)
                  (Some now) in
  exists l1 l2,
    rows w = l1 ++ r :: l2
    /\ invoke req now w =
         (json_response 200 (SuccessBody "Account deletion cancelled" r'),
          mkWorld (l1 ++ r' :: l2)
                  (trace w ++ [Update (Some (JStr u)) pending]))
    /\ (forall req2 now2,
          calls req2 "get_status" u ->
          fst (invoke req2 now2 (snd (invoke req now w)))
          = json_response 200 (StatusBody false None)).
Proof.
  intros Hc Inv Hin Hu Hs r'.
  pose proof (the_pending_row (rows w) u r Inv Hin Hu Hs) as E.
  destruct (filter_singleton (matches u pending) (rows w) r E)
    as (l1 & l2 & Hsplit & E1 & E2).
  exists l1, l2. split; [exact Hsplit|].
  assert (Hm : matches u pending r = true) by (apply matches_spec; auto).
  assert (Hinv : invoke req now w =
                 (json_response 200
                    (SuccessBody "Account deletion cancelled" r'),
                  mkWorld (l1 ++ r' :: l2)
                          (trace w ++ [Update (Some (JStr u)) pending]))).
  { rewrite (invoke_cancel_deletion req u now w Hc). unfold try_catch.
    rewrite (cancel_deletion_present u now w r E).
    rewrite Hsplit at 1.
    rewrite (cancel_map_split u now l1 l2 r E1 E2 Hm). reflexivity. }
  split; [exact Hinv|].
  intros req2 now2 Hc2.
  rewrite (invoke_get_status req2 u now2 _ Hc2). unfold try_catch.
  assert (E' : matching u pending (rows (snd (invoke req now w))) = []).
  { rewrite (invoke_cancel_deletion req u now w Hc). unfold try_catch.
    rewrite (cancel_deletion_present u now w r E). simpl.
    rewrite matching_after_cancel, String.eqb_refl. reflexivity. }
  rewrite get_status_at_most_one; rewrite E'; simpl; [reflexivity | lia].
Qed.

Lemma cancel_deletion_cancels_witness :
  exists l1 l2,
    sample_rows = l1 ++ mkRow 2 "u2" pending 700%Z None :: l2
    /\ invoke (post "cancel_deletion" "u2") 1000%Z sample
       = (json_response 200
            (SuccessBody "Account deletion cancelled"
                         (mkRow 2 "u2" cancelled 700%Z (Some 1000%Z))),
          mkWorld (l1 ++ mkRow 2 "u2" cancelled 700%Z (Some 1000%Z) :: l2)
                  [Update (Some (JStr "u2")) pending])
    /\ fst (invoke (post "get_status" "u2") 2000%Z
              (snd (invoke (post "cancel_deletion" "u2") 1000%Z sample)))
       = json_response 200 (StatusBody false None).
Proof.
  destruct (cancel_deletion_cancels
              (post "cancel_deletion" "u2") "u2" 1000%Z sample
              (mkRow 2 "u2" pending 700%Z None))
    as (l1 & l2 & Hsplit & Hinv & Hget).
  - apply calls_post. discriminate.
  - apply at_most_one_pendingb_spec. reflexivity.
  - simpl. auto.
  - reflexivity.
  - reflexivity.
  - exists l1, l2. split; [exact Hsplit|]. split; [exact Hinv|].
    apply Hget. apply calls_post. discriminate.
Defined.

(* ------------------------------------------------------------------ *)
(** ** get_status *)

(** C5.  [get_status] makes one access, a select: the rows afterwards are
  the rows before and no write is in the trace.  In a table of the data
  model the response is 200 with [has_pending_request: b] and
  [deletion_request: r], where [r] is the user's pending row and [b] is
  true when there is one, and [r] is [null] and [b] false when there is
  none, in particular when the user has no rows at all. *)
Theorem get_status_reports_pending
    (req : request) (u : string) (now : time) (w : world) :
  calls req "get_status" u ->
  (exists evs,
     snd (invoke req now w) = mkWorld (rows w) (trace w ++ evs)
     /\ forallb (fun a => negb (is_write a)) evs = true)
  /\ (at_most_one_pending (rows w) ->
      exists r : option row,
        fst (invoke req now w)
        = json_response 200
            (StatusBody (match r with Some _ => true | None => false end) r)
        /\ (forall x, r = Some x <->
                      In x (rows w) /\ user_id x = u /\ Storage.status x = pending)
        /\ ((forall x, In x (rows w) -> user_id x <> u) -> r = None)).
Proof.
  intros Hc. rewrite (invoke_get_status req u now w Hc). unfold try_catch.
  split.
  - exists [Select (Some (JStr u)) pending]. split; [|reflexivity].
    unfold get_status, eq_value, substitute, bind, await,
    select_maybeSingle; cbn [to_text ToString]; unfold ret at 1.
    destruct (matching u pending (rows w)) as [|a [|b l]]; reflexivity.
  - intros Inv. specialize (Inv u). unfold pending_of in Inv.
    rewrite (get_status_at_most_one u w Inv). simpl.
    exists (hd_error (matching u pending (rows w))).
    split; [reflexivity|].
    assert (Hiff : forall x, hd_error (matching u pending (rows w)) = Some x
                     <-> In x (rows w) /\ user_id x = u /\ Storage.status x = pending).
    { intros x. rewrite <- matching_In.
      destruct (matching u pending (rows w)) as [|a [|b l]]; simpl in *.
      - split; [discriminate | contradiction].
      - split; [intros [= ->]; auto | intros [->|[]]; reflexivity].
      - lia. }
    split; [exact Hiff|].
    intros Hno.
    destruct (hd_error (matching u pending (rows w))) as [x|] eqn:E;
      [|reflexivity].
    destruct (proj1 (Hiff x) eq_refl) as (Hin & Hu & _).
    exfalso. exact (Hno x Hin Hu).
Qed.

Lemma get_status_reports_pending_witness :
  fst (invoke (post "get_status" "u2") 1000%Z sample)
  = json_response 200
      (StatusBody true (Some (mkRow 2 "u2" pending 700%Z None)))
  /\ fst (invoke (post "get_status" "u3") 1000%Z sample)
     = json_response 200 (StatusBody false None).
Proof.
  destruct (get_status_reports_pending
              (post "get_status" "u2") "u2" 1000%Z sample)
    as (_ & H2); [apply calls_post; discriminate|].
  destruct (get_status_reports_pending
              (post "get_status" "u3") "u3" 1000%Z sample)
    as (_ & H3); [apply calls_post; discriminate|].
  destruct (H2 (at_most_one_pendingb_spec sample_rows eq_refl))
    as (r2 & E2 & I2 & _).
  destruct (H3 (at_most_one_pendingb_spec sample_rows eq_refl))
    as (r3 & E3 & _ & N3).
  split.
  - rewrite E2.
    rewrite (proj2 (I2 (mkRow 2 "u2" pending 700%Z None))); [reflexivity|].
    simpl. auto.
  - rewrite E3, N3; [reflexivity|].
    intros x [<-|[<-|[]]]; discriminate.
Defined.

(* ------------------------------------------------------------------ *)
(** ** Every invocation *)

(** The [try] block with its [catch] clause always returns: a JSON
  response, in one of the ways of [served]. *)
Lemma dispatch_served (req : request) (now : time) (w : world) :
  exists resp w',
    try_catch (dispatch req now) on_error w = (Return resp, w')
    /\ served now (requested_action req) (requested_user req) w resp w'
    /\ exists s p, resp = json_response s p.
Proof.
  assert (J : forall s p, exists s' p', json_response s p = json_response s' p')
    by (intros s p; exists s, p; reflexivity).
  unfold requested_user, requested_action.
  unfold try_catch, dispatch, bind, req_json.
  destruct (json_body req) as [msg|v].
  { do 2 eexists. split; [reflexivity|]. split; [apply sv_thrown | apply J]. }
  unfold ret at 1.
  destruct v as [ | | | | |fields]; simpl;
    try (do 2 eexists; split; [reflexivity|];
         split; [apply sv_thrown | apply J]);
    try (do 2 eexists; split; [reflexivity|];
         split; [apply sv_no_user; reflexivity | apply J]).
  set (uid := assoc "user_id" fields). set (act := assoc "action" fields).
  destruct (truthy uid) eqn:T; simpl.
  2:{ do 2 eexists. split; [reflexivity|].
      split; [apply sv_no_user; exact T | apply J]. }
  unfold substitute, console_log.
  destruct (to_text act) as [a|].
  2:{ do 2 eexists. split; [reflexivity|]. split; [apply sv_thrown | apply J]. }
  unfold ret at 1.
  destruct (to_text uid) as [k|] eqn:Tk.
  2:{ do 2 eexists. split; [reflexivity|]. split; [apply sv_thrown | apply J]. }
  unfold ret at 1. unfold ret at 1.
  destruct (strict_eq_str act "request_deletion") eqn:A1.
  { unfold request_deletion, eq_value, substitute, bind, await,
      select_maybeSingle.
    rewrite Tk. unfold ret at 1.
    destruct (matching k pending (rows w)) as [|x [|y l]] eqn:E.
    - unfold insert_single.
      destruct uid as [[ | | |u| | ]|] eqn:U; simpl;
        try (do 2 eexists; split; [reflexivity|];
             split; [apply (sv_insert_refused now act _ w k); auto;
                     discriminate | apply J]).
      simpl in Tk. injection Tk as <-.
      rewrite three_days_later.
      do 2 eexists. split; [reflexivity|].
      split; [apply (sv_created now act _ w u); auto | apply J].
    - do 2 eexists. split; [reflexivity|].
      split; [apply (sv_conflict now act _ w k x); auto | apply J].
    - do 2 eexists. split; [reflexivity|].
      split; [|apply J].
      apply (sv_select_error now act _ w k); auto. rewrite E. simpl. lia. }
  destruct (strict_eq_str act "cancel_deletion") eqn:A2.
  { unfold cancel_deletion, eq_value, substitute, bind, await, update_single.
    rewrite Tk. unfold ret at 1.
    destruct (matching k pending (rows w)) as [|x [|y l]] eqn:E; simpl.
    - do 2 eexists. split; [reflexivity|]. split; [|apply J].
      apply (sv_not_found now act _ w k); auto. rewrite E. discriminate.
    - do 2 eexists. split; [reflexivity|]. split; [|apply J].
      apply (sv_cancelled now act _ w k x); auto.
    - do 2 eexists. split; [reflexivity|]. split; [|apply J].
      apply (sv_not_found now act _ w k); auto. rewrite E. discriminate. }
  destruct (strict_eq_str act "get_status") eqn:A3.
  { unfold get_status, eq_value, substitute, bind, await, select_maybeSingle.
    rewrite Tk. unfold ret at 1.
    destruct (matching k pending (rows w)) as [|x [|y l]] eqn:E; simpl.
    - do 2 eexists. split; [reflexivity|]. split; [|apply J].
      apply (sv_status now act _ w k None); auto; rewrite E; simpl; auto.
    - do 2 eexists. split; [reflexivity|]. split; [|apply J].
      apply (sv_status now act _ w k (Some x)); auto; rewrite E; simpl; auto.
    - do 2 eexists. split; [reflexivity|]. split; [|apply J].
      apply (sv_select_error now act _ w k); auto. rewrite E. simpl. lia. }
  do 2 eexists. split; [reflexivity|]. split; [|apply J].
  apply sv_unknown; [exact T|].
  unfold unknown_action. rewrite A1, A2, A3. reflexivity.
Qed.

(** Every invocation ends in one of the ways of [served]. *)
Lemma invoke_served (req : request) (now : time) (w : world) :
  served now (requested_action req) (requested_user req) w
    (fst (invoke req now w)) (snd (invoke req now w)).
Proof.
  unfold invoke, serve.
  destruct (String.eqb (method req) "OPTIONS"); [apply sv_preflight|].
  destruct (dispatch_served req now w) as (resp & w' & E & S & _).
  rewrite E. exact S.
Qed.

(** The response of an invocation is the preflight response or a JSON
  response; the uncaught-error response is never sent. *)
Lemma invoke_response (req : request) (now : time) (w : world) :
  (method req = "OPTIONS"
   /\ fst (invoke req now w) = mkResponse 200 corsHeaders None)
  \/ (method req <> "OPTIONS"
      /\ exists s p, fst (invoke req now w) = json_response s p).
Proof.
  unfold invoke, serve.
  destruct (String.eqb (method req) "OPTIONS") eqn:Em.
  - left. apply String.eqb_eq in Em. split; [exact Em | reflexivity].
  - right. apply String.eqb_neq in Em. split; [exact Em|].
    destruct (dispatch_served req now w) as (resp & w' & E & _ & J).
    rewrite E. exact J.
Qed.


Lemma served_keeps_at_most_one
    (now : time) (act uid : value) (w w' : world) (resp : response) :
  served now act uid w resp w' ->
  at_most_one_pending (rows w) -> at_most_one_pending (rows w').
Proof.
  intros S Inv.
  destruct S as [ | | | | | | u r _ _ E Hr | | | | u r _ _ E ]; simpl;
    try exact Inv.
  - intros v. unfold pending_of. rewrite matching_app, length_app.
    specialize (Inv v). unfold pending_of in Inv.
    unfold matching at 2. simpl.
    destruct (matches v pending r) eqn:Mv; simpl; [|lia].
    apply matches_spec in Mv. destruct Mv as (Hv & _).
    subst r. simpl in Hv. subst v. rewrite E. simpl. lia.
  - intros v. unfold pending_of. rewrite matching_after_cancel.
    destruct (String.eqb v u); [simpl; lia | apply Inv].
Qed.

Lemma served_never_completes
    (now : time) (act uid : value) (w w' : world) (resp : response) :
  served now act uid w resp w' ->
  Forall (fun r => Storage.status r <> completed) (rows w) ->
  Forall (fun r => Storage.status r <> completed) (rows w').
Proof.
  intros S Hno.
  destruct S as [ | | | | | | u r _ _ E Hr | | | | u r _ _ E ]; simpl;
    try exact Hno.
  - apply Forall_app. split; [exact Hno|].
    subst r. repeat constructor. discriminate.
  - apply Forall_map. revert Hno. apply Forall_impl. intros a Ha.
    destruct (matches u pending a); [discriminate | exact Ha].
Qed.

(* ------------------------------------------------------------------ *)
(** ** The invariant *)

(** C6.  At most one pending row per user is an invariant of the handler:
  if it holds of the table before an invocation, whatever the request
  (method, body, action, user) and the time read, it holds of the table
  after it. *)
Theorem at_most_one_pending_preserved
    (req : request) (now : time) (w : world) :
  at_most_one_pending (rows w) ->
  at_most_one_pending (rows (snd (invoke req now w))).
Proof.
  intros Inv.
  exact (served_keeps_at_most_one _ _ _ _ _ _ (invoke_served req now w) Inv).
Qed.

Lemma at_most_one_pending_preserved_witness :
  at_most_one_pending
    (rows (snd (invoke (post "request_deletion" "u1") 1000%Z sample))).
Proof.
  apply (at_most_one_pending_preserved
           (post "request_deletion" "u1") 1000%Z sample).
  apply at_most_one_pendingb_spec. reflexivity.
Defined.

(* ------------------------------------------------------------------ *)
(** ** The frame *)



(** The key of a filter is the text of the value: a [cancel_deletion] whose
  [user_id] is the array [["u2"]] cancels the pending row of [u2]. *)
Example cancel_with_array_user_id :
  invoke (mkRequest "POST"
            (Json (JObj [("action", JStr "cancel_deletion");
                         ("user_id", JArr [JStr "u2"])])))
         1000%Z sample
  = (json_response 200
       (SuccessBody "Account deletion cancelled"
                    (mkRow 2 "u2" cancelled 700%Z (Some 1000%Z))),
     mkWorld [mkRow 1 "u1" cancelled 500%Z (Some 600%Z);
              mkRow 2 "u2" cancelled 700%Z (Some 1000%Z)]
             [Update (Some (JArr [JStr "u2"])) pending]).
Proof. reflexivity. Qed.

(** An insert refuses such a value: a [request_deletion] whose [user_id] is
  the array [["u1"]] finds no pending row of [u1], and then fails. *)
Example request_with_array_user_id :
  invoke (mkRequest "POST"
            (Json (JObj [("action", JStr "request_deletion");
                         ("user_id", JArr [JStr "u1"])])))
         1000%Z sample
  = (json_response 500 (ErrorBody "An unexpected error occurred"),
     mkWorld sample_rows
             [Select (Some (JArr [JStr "u1"])) pending;
              Insert (Some (JArr [JStr "u1"]))]).
Proof. reflexivity. Qed.

(* ------------------------------------------------------------------ *)
(** ** Response headers *)

(** C9.  Every response of an invocation carries the two CORS headers of
  [corsHeaders], first in its header list: [Access-Control-Allow-Origin]
  is ["*"] and [Access-Control-Allow-Headers] is the fixed list.  The
  response to a preflight has exactly these headers and no body. *)
Theorem cors_headers_on_every_response
    (req : request) (now : time) (w : world) :
  header "Access-Control-Allow-Origin" (headers (fst (invoke req now w)))
  = Some "*"
  /\ header "Access-Control-Allow-Headers" (headers (fst (invoke req now w)))
     = Some "authorization, x-client-info, apikey, content-type"
  /\ (exists extra, headers (fst (invoke req now w)) = corsHeaders ++ extra)
  /\ (method req = "OPTIONS" ->
      headers (fst (invoke req now w)) = corsHeaders
      /\ body (fst (invoke req now w)) = None).
Proof.
  destruct (invoke_response req now w) as [(Hm & E) | (Hm & s & p & E)];
    rewrite E; simpl.
  - repeat split. exists []. reflexivity.
  - repeat split; try contradiction.
    exists [("Content-Type", "application/json")]. reflexivity.
Qed.

Lemma cors_headers_on_every_response_witness :
  headers (fst (invoke (mkRequest "OPTIONS" (NotJson "Unexpected end of JSON input"))
                       1000%Z sample))
  = corsHeaders
  /\ body (fst (invoke (mkRequest "OPTIONS" (NotJson "Unexpected end of JSON input"))
                       1000%Z sample))
     = None.
Proof.
  apply (cors_headers_on_every_response
           (mkRequest "OPTIONS" (NotJson "Unexpected end of JSON input"))
           1000%Z sample).
  reflexivity.
Defined.

(* ------------------------------------------------------------------ *)
(** ** Status codes for input the endpoint cannot use *)

(** C8, as stated, fails: a POST whose body is not JSON text is malformed
  input, and the response to it is 500, not 400. *)
Lemma malformed_body_is_answered_500 :
  malformed_or_unknown
    (mkRequest "POST" (NotJson "Unexpected end of JSON input")) = true
  /\ Http.status (fst (invoke
                  (mkRequest "POST" (NotJson "Unexpected end of JSON input"))
                  1000%Z sample)) = 500
  /\ ~ (forall req now w,
          malformed_or_unknown req = true ->
          Http.status (fst (invoke req now w)) = 400).
Proof.
  split; [reflexivity|]. split; [reflexivity|].
  intros H.
  specialize (H (mkRequest "POST" (NotJson "Unexpected end of JSON input"))
                1000%Z sample eq_refl).
  discriminate H.
Qed.

(** The log line throws on a value it cannot print, before the action is
  looked at. *)
Example unprintable_action_is_answered_500 :
  invoke (mkRequest "POST"
            (Json (JObj [("action", JObj [("toString", JNum 1)]);
                         ("user_id", JStr "u1")])))
         1000%Z sample
  = (json_response 500
       (ErrorBody "Cannot convert object to primitive value"),
     sample).
Proof. reflexivity. Qed.

(** C8, amended.  For a request that is not a preflight, whose body parses
  to a document other than [null]: when [user_id] is missing the response
  is 400; when [user_id] is present, [action] is none of the three actions
  and the log line can print both values, the response is 400; in both
  cases the storage is not accessed.  When [user_id] is present and the
  log line cannot print [action] or [user_id] (an object with a field
  [toString] of its own), the response is 500, again without storage
  access.  When the body is not JSON text, or is the document [null], the
  response is 500. *)
Theorem invalid_argument_status
    (m : string) (now : time) (w : world) :
  m <> "OPTIONS" ->
  (forall v,
     v <> JNull ->
     truthy (prop v "user_id") = false
     \/ (unknown_action (prop v "action") = true
         /\ printable (prop v "action") = true
         /\ printable (prop v "user_id") = true) ->
     Http.status (fst (invoke (mkRequest m (Json v)) now w)) = 400
     /\ snd (invoke (mkRequest m (Json v)) now w) = w)
  /\ (forall v,
        v <> JNull ->
        truthy (prop v "user_id") = true ->
        printable (prop v "action") = false
        \/ printable (prop v "user_id") = false ->
        Http.status (fst (invoke (mkRequest m (Json v)) now w)) = 500
        /\ snd (invoke (mkRequest m (Json v)) now w) = w)
  /\ (forall msg,
        Http.status (fst (invoke (mkRequest m (NotJson msg)) now w)) = 500)
  /\ Http.status (fst (invoke (mkRequest m (Json JNull)) now w)) = 500.
Proof.
  intros Hm. apply String.eqb_neq in Hm.
  unfold invoke, serve. simpl. rewrite Hm.
  unfold try_catch, dispatch, bind, req_json. simpl.
  split; [|split; [|split; reflexivity]].
  - intros v Hv H.
    destruct v as [ | | | | |fields]; simpl in *;
      try congruence; try (split; reflexivity).
    destruct (truthy (assoc "user_id" fields)); simpl;
      [|split; reflexivity].
    destruct H as [H|(H & Pa & Pu)]; [discriminate|].
    unfold printable in Pa, Pu. unfold substitute.
    destruct (to_text (assoc "action" fields)); [|discriminate].
    destruct (to_text (assoc "user_id" fields)); [|discriminate].
    unfold unknown_action in H.
    apply andb_true_iff in H. destruct H as (H & H3).
    apply andb_true_iff in H. destruct H as (H1 & H2).
    apply negb_true_iff in H1, H2, H3. simpl. rewrite H1, H2, H3.
    split; reflexivity.
  - intros v Hv T P.
    destruct v as [ | | | | |fields]; simpl in *; try discriminate.
    rewrite T. simpl. unfold printable in P. unfold substitute.
    destruct (to_text (assoc "action" fields)); simpl.
    + destruct (to_text (assoc "user_id" fields)); simpl.
      * destruct P; discriminate.
      * split; reflexivity.
    + split; reflexivity.
Qed.

Lemma invalid_argument_status_witness :
  Http.status (fst (invoke (post "purge" "u1") 1000%Z sample)) = 400
  /\ snd (invoke (post "purge" "u1") 1000%Z sample) = sample.
Proof.
  destruct (invalid_argument_status "POST" 1000%Z sample) as (H & _ & _).
  - discriminate.
  - apply (H (JObj [("action", JStr "purge"); ("user_id", JStr "u1")])).
    + discriminate.
    + right. repeat split.
Defined.

(* ------------------------------------------------------------------ *)
(** ** What an invocation leaves alone *)

(** X1.  The rows change only on success: when the response status is not
  200, and also whenever the response body is not a success body, the rows
  after the invocation are the rows before it. *)
Theorem rows_change_only_on_success
    (req : request) (now : time) (w : world) :
  (Http.status (fst (invoke req now w)) <> 200 ->
   rows (snd (invoke req now w)) = rows w)
  /\ ((forall m r, body (fst (invoke req now w)) <> Some (SuccessBody m r)) ->
      rows (snd (invoke req now w)) = rows w).
Proof.
  generalize (invoke_served req now w).
  generalize (fst (invoke req now w)) (snd (invoke req now w)).
  intros resp w' S.
  destruct S; simpl; split; intros Hne; try reflexivity;
    try (exfalso; apply Hne; reflexivity);
    try (exfalso; eapply Hne; reflexivity).
Qed.

Lemma rows_change_only_on_success_witness :
  rows (snd (invoke (post "request_deletion" "u2") 1000%Z sample))
  = sample_rows.
Proof.
  apply (rows_change_only_on_success
           (post "request_deletion" "u2") 1000%Z sample).
  discriminate.
Defined.

(** X2.  One invocation appends at most two accesses to the storage, and at
  most one of them is a write. *)
Theorem at_most_two_accesses_one_write
    (req : request) (now : time) (w : world) :
  exists evs,
    trace (snd (invoke req now w)) = trace w ++ evs
    /\ (List.length evs <= 2)%nat
    /\ (List.length (filter is_write evs) <= 1)%nat.
Proof.
  generalize (invoke_served req now w).
  generalize (fst (invoke req now w)) (snd (invoke req now w)).
  generalize (requested_user req). intros uid resp w' S.
  destruct S; simpl;
    try (exists []; rewrite app_nil_r; simpl; repeat split; lia);
    try (exists [Select uid pending]; simpl; repeat split; lia);
    try (exists [Update uid pending]; simpl; repeat split; lia).
  all: exists [Select uid pending; Insert uid].
  all: rewrite <- app_assoc; simpl; repeat split; lia.
Qed.

Lemma evolves_refl (now : time) (l : table) : Forall2 (evolves now) l l.
Proof.
  induction l as [|a l IH]; constructor; [left; reflexivity | exact IH].
Qed.

Lemma evolves_cancel (now : time) (u : string) (l : table) :
  Forall2 (evolves now) l
    (map (fun x => if matches u pending x then set_cancelled now x else x) l).
Proof.
  induction l as [|a l IH]; simpl; constructor; [|exact IH].
  destruct (matches u pending a) eqn:Ma; [|left; reflexivity].
  apply matches_spec in Ma. right. split; [apply Ma | reflexivity].
Qed.

(** X3.  No row is ever removed or reordered.  After an invocation the
  table is the old rows, each one either untouched or, if it was pending,
  cancelled at the time read with its [id], [user_id] and
  [scheduled_deletion_at] kept, followed by at most one new row, which is
  pending and has no [cancelled_at]. *)
Theorem rows_are_kept
    (req : request) (now : time) (w : world) :
  exists kept added,
    rows (snd (invoke req now w)) = kept ++ added
    /\ Forall2 (evolves now) (rows w) kept
    /\ (List.length added <= 1)%nat
    /\ Forall (fun r => Storage.status r = pending /\ cancelled_at r = None)
              added.
Proof.
  generalize (invoke_served req now w).
  generalize (fst (invoke req now w)) (snd (invoke req now w)).
  intros resp w' S.
  destruct S as [ | | | | | | u r _ _ _ Hr | | | | u r _ _ _ ]; simpl;
    try (exists (rows w), []; rewrite app_nil_r;
         repeat split; [apply evolves_refl | simpl; lia | constructor]).
  - exists (rows w), [r]. repeat split; [apply evolves_refl | simpl; lia |].
    subst r. repeat constructor.
  - eexists _, []. rewrite app_nil_r.
    repeat split; [apply evolves_cancel | simpl; lia | constructor].
Qed.

(** X4.  Every row a response shows to the caller is a row of the table as
  the invocation leaves it. *)
Theorem shown_rows_are_stored
    (req : request) (now : time) (w : world) (x : row) :
  In x (shown_rows (fst (invoke req now w))) ->
  In x (rows (snd (invoke req now w))).
Proof.
  generalize (invoke_served req now w).
  generalize (fst (invoke req now w)) (snd (invoke req now w)).
  intros resp w' S.
  destruct S as [ | | | | | u r _ _ E | u r _ _ _ _ | | u found _ _ _ Hf
                | | u r _ _ E ];
    simpl; try contradiction.
  - intros [<-|[]].
    assert (H : In r (matching u pending (rows w)))
      by (rewrite E; left; reflexivity).
    apply matching_In in H. apply H.
  - intros [<-|[]]. apply in_or_app. right. left. reflexivity.
  - unfold shown_rows. simpl. destruct found as [r|]; [|contradiction].
    intros [<-|[]].
    assert (H : In r (matching u pending (rows w))).
    { destruct (matching u pending (rows w)); [discriminate|].
      injection Hf as ->. left. reflexivity. }
    apply matching_In in H. apply H.
  - intros [<-|[]].
    assert (H : In r (matching u pending (rows w)))
      by (rewrite E; left; reflexivity).
    apply matching_In in H. destruct H as (Hin & Hu & Hs).
    apply in_map_iff. exists r. split; [|exact Hin].
    assert (Hm : matches u pending r = true) by (apply matches_spec; auto).
    rewrite Hm. reflexivity.
Qed.

Lemma shown_rows_are_stored_witness :
  In (mkRow 2 "u2" cancelled 700%Z (Some 1000%Z))
     (rows (snd (invoke (post "cancel_deletion" "u2") 1000%Z sample))).
Proof.
  apply (shown_rows_are_stored (post "cancel_deletion" "u2") 1000%Z sample).
  simpl. auto.
Defined.

(* ------------------------------------------------------------------ *)
(** ** Sequences of calls *)

(** X5.  What [request_deletion] creates, [get_status] finds: for a user
  with no pending row, a [get_status] right after a [request_deletion]
  answers [has_pending_request: true] with the very row the
  [request_deletion] response carried. *)
Theorem request_then_get_status
    (req1 req2 : request) (u : string) (now1 now2 : time) (w : world) :
  calls req1 "request_deletion" u ->
  calls req2 "get_status" u ->
  pending_of u (rows w) = [] ->
  exists r,
    fst (invoke req1 now1 w)
    = json_response 200 (SuccessBody "Account deletion scheduled" r)
    /\ fst (invoke req2 now2 (snd (invoke req1 now1 w)))
       = json_response 200 (StatusBody true (Some r)).
Proof.
  intros H1 H2 E. unfold pending_of in E.
  rewrite (invoke_request_deletion req1 u now1 w H1). unfold try_catch.
  rewrite (request_deletion_absent u now1 w E). simpl.
  eexists. split; [reflexivity|].
  rewrite (invoke_get_status req2 u now2 _ H2). unfold try_catch.
  rewrite get_status_at_most_one; simpl;
    rewrite matching_app, E, matching_own_row; simpl; [reflexivity | lia].
Qed.

Lemma request_then_get_status_witness :
  exists r,
    fst (invoke (post "request_deletion" "u1") 1000%Z sample)
    = json_response 200 (SuccessBody "Account deletion scheduled" r)
    /\ fst (invoke (post "get_status" "u1") 2000%Z
              (snd (invoke (post "request_deletion" "u1") 1000%Z sample)))
       = json_response 200 (StatusBody true (Some r)).
Proof.
  apply (request_then_get_status
           (post "request_deletion" "u1") (post "get_status" "u1")
           "u1" 1000%Z 2000%Z sample).
  - apply calls_post. discriminate.
  - apply calls_post. discriminate.
  - reflexivity.
Defined.

(** X6.  A cancelled request does not block a new one: in a table of the
  data model, after [cancel_deletion] has cancelled the user's pending row,
  a [request_deletion] for the same user succeeds again.  It appends a new
  pending row, scheduled three days after the time it reads, and that row
  is then the user's only pending one. *)
Theorem request_again_after_cancel
    (req1 req2 : request) (u : string) (now1 now2 : time) (w : world)
    (r : row) :
  calls req1 "cancel_deletion" u ->
  calls req2 "request_deletion" u ->
  at_most_one_pending (rows w) ->
  In r (rows w) -> user_id r = u -> Storage.status r = pending ->
  let w1 := snd (invoke req1 now1 w) in
  exists r2,
    invoke req2 now2 w1
    = (json_response 200 (SuccessBody "Account deletion scheduled" r2),
       mkWorld (rows w1 ++ [r2])
               (trace w1 ++ [Select (Some (JStr u)) pending;
                             Insert (Some (JStr u))]))
    /\ r2 = mkRow (fresh_id (rows w1)) u pending (now2 + 259200000)%Z None
    /\ pending_of u (rows (snd (invoke req2 now2 w1))) = [r2]
    /\ In (set_cancelled now1 r) (rows (snd (invoke req2 now2 w1))).
Proof.
  intros H1 H2 Inv Hin Hu Hs w1.
  pose proof (the_pending_row (rows w) u r Inv Hin Hu Hs) as E.
  assert (Hm : matches u pending r = true) by (apply matches_spec; auto).
  assert (Ew1 : rows w1
                = map (fun x => if matches u pending x
                                then set_cancelled now1 x else x) (rows w)).
  { subst w1. rewrite (invoke_cancel_deletion req1 u now1 w H1).
    unfold try_catch. rewrite (cancel_deletion_present u now1 w r E).
    reflexivity. }
  assert (E1 : matching u pending (rows w1) = []).
  { rewrite Ew1, matching_after_cancel, String.eqb_refl. reflexivity. }
  eexists. split; [|split; [reflexivity|]].
  - rewrite (invoke_request_deletion req2 u now2 w1 H2). unfold try_catch.
    rewrite (request_deletion_absent u now2 w1 E1). reflexivity.
  - rewrite (invoke_request_deletion req2 u now2 w1 H2). unfold try_catch.
    rewrite (request_deletion_absent u now2 w1 E1). simpl.
    split.
    + unfold pending_of. rewrite matching_app, E1, matching_own_row.
      reflexivity.
    + apply in_or_app. left. rewrite Ew1. apply in_map_iff.
      exists r. rewrite Hm. auto.
Qed.

Lemma request_again_after_cancel_witness :
  pending_of "u2"
    (rows (snd (invoke (post "request_deletion" "u2") 2000%Z
                  (snd (invoke (post "cancel_deletion" "u2") 1000%Z sample)))))
  = [mkRow 3 "u2" pending 259202000%Z None].
Proof.
  destruct (request_again_after_cancel
              (post "cancel_deletion" "u2") (post "request_deletion" "u2")
              "u2" 1000%Z 2000%Z sample (mkRow 2 "u2" pending 700%Z None))
    as (r2 & _ & Hr2 & Hp & _).
  - apply calls_post. discriminate.
  - apply calls_post. discriminate.
  - apply at_most_one_pendingb_spec. reflexivity.
  - simpl. auto.
  - reflexivity.
  - reflexivity.
  - rewrite Hp, Hr2. reflexivity.
Defined.

(** X7.  [cancel_deletion] does not succeed twice in a row: whatever the
  table, a [cancel_deletion] for a user right after another one for the
  same user answers 404 and leaves the rows as the first one left them. *)
Theorem cancel_twice_not_found
    (req1 req2 : request) (u : string) (now1 now2 : time) (w : world) :
  calls req1 "cancel_deletion" u ->
  calls req2 "cancel_deletion" u ->
  let w1 := snd (invoke req1 now1 w) in
  invoke req2 now2 w1
  = (json_response 404 (ErrorBody "No pending deletion request found"),
     mkWorld (rows w1) (trace w1 ++ [Update (Some (JStr u)) pending])).
Proof.
  intros H1 H2 w1.
  assert (E1 : List.length (matching u pending (rows w1)) <> 1%nat).
  { subst w1. rewrite (invoke_cancel_deletion req1 u now1 w H1).
    unfold try_catch, cancel_deletion, eq_value, substitute, bind, await,
    update_single; cbn [to_text ToString]; unfold ret at 1.
    destruct (matching u pending (rows w)) as [|a [|b l]] eqn:E; simpl.
    - rewrite E. discriminate.
    - rewrite matching_after_cancel, String.eqb_refl. discriminate.
    - rewrite E. discriminate. }
  rewrite (invoke_cancel_deletion req2 u now2 w1 H2).
  unfold try_catch, cancel_deletion, eq_value, substitute, bind, await,
    update_single; cbn [to_text ToString]; unfold ret at 1.
  destruct (matching u pending (rows w1)) as [|a [|b l]]; simpl in *;
    try reflexivity.
  contradiction.
Qed.

Lemma cancel_twice_not_found_witness :
  fst (invoke (post "cancel_deletion" "u2") 2000%Z
         (snd (invoke (post "cancel_deletion" "u2") 1000%Z sample)))
  = json_response 404 (ErrorBody "No pending deletion request found").
Proof.
  rewrite (cancel_twice_not_found
             (post "cancel_deletion" "u2") (post "cancel_deletion" "u2")
             "u2" 1000%Z 2000%Z sample).
  - reflexivity.
  - apply calls_post. discriminate.
  - apply calls_post. discriminate.
Defined.

(* ------------------------------------------------------------------ *)
(** ** Outside the data model: several pending rows of one user *)

(** X8.  When a user has two or more pending rows, [maybeSingle] answers
  with an error: both [request_deletion] and [get_status] respond 500 with
  the fixed text "An unexpected error occurred", not the storage's message,
  and the rows are untouched. *)
Theorem duplicate_pending_rows_are_an_internal_error
    (req : request) (u : string) (now : time) (w : world) :
  calls req "request_deletion" u \/ calls req "get_status" u ->
  (2 <= List.length (pending_of u (rows w)))%nat ->
  invoke req now w
  = (json_response 500 (ErrorBody "An unexpected error occurred"),
     mkWorld (rows w) (trace w ++ [Select (Some (JStr u)) pending])).
Proof.
  unfold pending_of. intros [H|H] L.
  - rewrite (invoke_request_deletion req u now w H).
    unfold try_catch, request_deletion, eq_value, substitute, bind, await,
    select_maybeSingle; cbn [to_text ToString]; unfold ret at 1.
    destruct (matching u pending (rows w)) as [|a [|b l]]; simpl in *;
      try lia. reflexivity.
  - rewrite (invoke_get_status req u now w H).
    unfold try_catch, get_status, eq_value, substitute, bind, await,
    select_maybeSingle; cbn [to_text ToString]; unfold ret at 1.
    destruct (matching u pending (rows w)) as [|a [|b l]]; simpl in *;
      try lia. reflexivity.
Qed.

Lemma duplicate_pending_rows_are_an_internal_error_witness :
  invoke (post "get_status" "u2") 1000%Z
         (mkWorld (mkRow 7 "u2" pending 900%Z None :: sample_rows) [])
  = (json_response 500 (ErrorBody "An unexpected error occurred"),
     mkWorld (mkRow 7 "u2" pending 900%Z None :: sample_rows)
             [Select (Some (JStr "u2")) pending]).
Proof.
  apply (duplicate_pending_rows_are_an_internal_error
           (post "get_status" "u2") "u2" 1000%Z
           (mkWorld (mkRow 7 "u2" pending 900%Z None :: sample_rows) [])).
  - right. apply calls_post. discriminate.
  - simpl. lia.
Defined.

(** X9.  When a user has two or more pending rows, [cancel_deletion]
  cancels none of them: [single] answers PGRST116 as it does for no row,
  so the response is 404 "No pending deletion request found" and the rows
  are untouched. *)
Theorem duplicate_pending_rows_cannot_be_cancelled
    (req : request) (u : string) (now : time) (w : world) :
  calls req "cancel_deletion" u ->
  (2 <= List.length (pending_of u (rows w)))%nat ->
  invoke req now w
  = (json_response 404 (ErrorBody "No pending deletion request found"),
     mkWorld (rows w) (trace w ++ [Update (Some (JStr u)) pending])).
Proof.
  unfold pending_of. intros H L.
  rewrite (invoke_cancel_deletion req u now w H).
  unfold try_catch, cancel_deletion, eq_value, substitute, bind, await,
    update_single; cbn [to_text ToString]; unfold ret at 1.
  destruct (matching u pending (rows w)) as [|a [|b l]]; simpl in *;
    try lia. reflexivity.
Qed.

Lemma duplicate_pending_rows_cannot_be_cancelled_witness :
  invoke (post "cancel_deletion" "u2") 1000%Z
         (mkWorld (mkRow 7 "u2" pending 900%Z None :: sample_rows) [])
  = (json_response 404 (ErrorBody "No pending deletion request found"),
     mkWorld (mkRow 7 "u2" pending 900%Z None :: sample_rows)
             [Update (Some (JStr "u2")) pending]).
Proof.
  apply (duplicate_pending_rows_cannot_be_cancelled
           (post "cancel_deletion" "u2") "u2" 1000%Z
           (mkWorld (mkRow 7 "u2" pending 900%Z None :: sample_rows) [])).
  - apply calls_post. discriminate.
  - simpl. lia.
Defined.

(* ------------------------------------------------------------------ *)
(** ** Status codes *)

(** X10.  The handler answers with 200, 400, 404 or 500 and nothing else;
  the body has an [error] field exactly when the status is not 200; and
  404 is only ever the answer to a [cancel_deletion]. *)
Theorem response_statuses
    (req : request) (now : time) (w : world) :
  (Http.status (fst (invoke req now w)) = 200
   \/ Http.status (fst (invoke req now w)) = 400
   \/ Http.status (fst (invoke req now w)) = 404
   \/ Http.status (fst (invoke req now w)) = 500)
  /\ has_error_field (fst (invoke req now w))
     = negb (Nat.eqb (Http.status (fst (invoke req now w))) 200)
  /\ (Http.status (fst (invoke req now w)) = 404 ->
      strict_eq_str (requested_action req) "cancel_deletion" = true).
Proof.
  generalize (invoke_served req now w).
  generalize (fst (invoke req now w)) (snd (invoke req now w)).
  generalize (requested_action req) (requested_user req).
  intros act uid resp w' S.
  destruct S; simpl; repeat split; auto; discriminate.
Qed.

Lemma response_statuses_witness :
  strict_eq_str (requested_action (post "cancel_deletion" "u1"))
                "cancel_deletion" = true.
Proof.
  apply (response_statuses (post "cancel_deletion" "u1") 1000%Z sample).
  reflexivity.
Defined.

(* ------------------------------------------------------------------ *)
(** ** The states the handler can reach *)

(** X11.  In every state the handler can reach from the empty table, by
  any sequence of requests whatever their methods, bodies and times, each
  user has at most one pending row and no row is [completed]. *)
Theorem reachable_tables
    (invocations : list (request * time)) :
  at_most_one_pending (rows (run invocations (mkWorld [] [])))
  /\ Forall (fun r => Storage.status r <> completed)
            (rows (run invocations (mkWorld [] []))).
Proof.
  assert (G : forall l w,
             at_most_one_pending (rows w) ->
             Forall (fun r => Storage.status r <> completed) (rows w) ->
             at_most_one_pending (rows (run l w))
             /\ Forall (fun r => Storage.status r <> completed)
                       (rows (run l w))).
  { induction l as [|[req now] l IH]; intros w I1 I2; simpl; [auto|].
    pose proof (invoke_served req now w) as S.
    apply IH.
    - exact (served_keeps_at_most_one _ _ _ _ _ _ S I1).
    - exact (served_never_completes _ _ _ _ _ _ S I2). }
  apply G.
  - intros u. simpl. lia.
  - constructor.
Qed.

(* ------------------------------------------------------------------ *)
(** ** The business profile page: category badge *)

(** X12.  The badge always finds an entry, falling back to "Other", for
  every category that is not the name of a member of [Object.prototype]:
  the label shown is the one of the category's own entry, or "Other" when
  the table has no such entry.  (For those inherited names the lookup is
  truthy, there is no fallback and no label.) *)
Theorem category_badge_falls_back_to_other (category : string) :
  ~ In category BusinessProfile.object_prototype_names ->
  (forall info,
     BusinessProfile.own category BusinessProfile.CATEGORY_INFO = Some info ->
     BusinessProfile.badge_label category
     = Some (BusinessProfile.label info))
  /\ (BusinessProfile.own category BusinessProfile.CATEGORY_INFO = None ->
      BusinessProfile.badge_label category = Some "Other").
Proof.
  intros Hno.
  unfold BusinessProfile.badge_label, BusinessProfile.categoryInfo,
    BusinessProfile.get.
  split.
  - intros info E. rewrite E. reflexivity.
  - intros E. rewrite E.
    destruct (existsb (String.eqb category)
                BusinessProfile.object_prototype_names) eqn:P.
    + exfalso. apply Hno. apply existsb_exists in P.
      destruct P as (k & Hk & Ek). apply String.eqb_eq in Ek.
      subst k. exact Hk.
    + reflexivity.
Qed.

Lemma category_badge_falls_back_to_other_witness :
  BusinessProfile.badge_label "bakery" = Some "Other".
Proof.
  apply (category_badge_falls_back_to_other "bakery").
  - simpl. intros H.
    repeat (destruct H as [H|H]; [discriminate H|]). exact H.
  - reflexivity.
Defined.

(* ------------------------------------------------------------------ *)
(** ** The business profile page: following *)

Section Following.

Variables Post BusinessImage : Type.

Lemma of_business_delete (b u : string) (t : list BusinessProfile.follow) :
  List.length (BusinessProfile.of_business b t)
  = (List.length (BusinessProfile.of_business b
                    (BusinessProfile.delete_follow b u t))
     + List.length (BusinessProfile.of_pair b u t))%nat.
Proof.
  unfold BusinessProfile.of_business, BusinessProfile.delete_follow,
    BusinessProfile.of_pair.
  induction t as [|r t IH]; simpl; [reflexivity|].
  destruct (String.eqb (BusinessProfile.business_id r) b) eqn:Eb;
    destruct (String.eqb (BusinessProfile.user_id r) u) eqn:Eu;
    simpl; rewrite ?Eb; simpl; lia.
Qed.

Lemma of_pair_delete (b u : string) (t : list BusinessProfile.follow) :
  BusinessProfile.of_pair b u (BusinessProfile.delete_follow b u t) = [].
Proof.
  unfold BusinessProfile.delete_follow, BusinessProfile.of_pair.
  induction t as [|r t IH]; simpl; [reflexivity|].
  destruct (String.eqb (BusinessProfile.business_id r) b
            && String.eqb (BusinessProfile.user_id r) u) eqn:E;
    simpl; rewrite ?E; exact IH.
Qed.

Lemma of_business_insert (b u : string) (t : list BusinessProfile.follow) :
  List.length (BusinessProfile.of_business b
                 (BusinessProfile.insert_follow b u t))
  = S (List.length (BusinessProfile.of_business b t)).
Proof.
  unfold BusinessProfile.of_business, BusinessProfile.insert_follow.
  rewrite filter_app, length_app. simpl.
  rewrite String.eqb_refl. simpl. lia.
Qed.

Lemma of_pair_insert (b u : string) (t : list BusinessProfile.follow) :
  List.length (BusinessProfile.of_pair b u
                 (BusinessProfile.insert_follow b u t))
  = S (List.length (BusinessProfile.of_pair b u t)).
Proof.
  unfold BusinessProfile.of_pair, BusinessProfile.insert_follow.
  rewrite filter_app, length_app. simpl.
  rewrite !String.eqb_refl. simpl. lia.
Qed.

Lemma delete_nothing (b u : string) (t : list BusinessProfile.follow) :
  BusinessProfile.of_pair b u t = [] ->
  BusinessProfile.delete_follow b u t = t.
Proof.
  unfold BusinessProfile.delete_follow, BusinessProfile.of_pair.
  induction t as [|r t IH]; simpl; [reflexivity|].
  destruct (String.eqb (BusinessProfile.business_id r) b
            && String.eqb (BusinessProfile.user_id r) u) eqn:E; simpl.
  - discriminate.
  - intros H. rewrite (IH H). reflexivity.
Qed.

Lemma followCheck_exactly_one (b u : string)
    (t : list BusinessProfile.follow) :
  match BusinessProfile.followCheck b u t with
  | Some _ => true
  | None => false
  end
  = Nat.eqb (List.length (BusinessProfile.of_pair b u t)) 1.
Proof.
  unfold BusinessProfile.followCheck.
  destruct (BusinessProfile.of_pair b u t) as [|r [|r' l]]; reflexivity.
Qed.

(** The click keeps the page and the table in agreement, provided the user
  has at most one follow row for the business. *)
Lemma handleFollow_in_sync (u i : string)
    (t : list BusinessProfile.follow) (s : BusinessProfile.state Post BusinessImage) :
  i <> "" ->
  (List.length (BusinessProfile.of_pair i u t) <= 1)%nat ->
  BusinessProfile.in_sync i u t s ->
  BusinessProfile.in_sync i u (snd (fst (BusinessProfile.handleFollow (Some u) (Some i) t s)))
              (fst (fst (BusinessProfile.handleFollow (Some u) (Some i) t s)))
  /\ (List.length
        (BusinessProfile.of_pair i u
           (snd (fst (BusinessProfile.handleFollow (Some u) (Some i) t s)))) <= 1)%nat.
Proof.
  intros Hi L (Hc & Hf).
  unfold BusinessProfile.handleFollow, BusinessProfile.no_id.
  apply String.eqb_neq in Hi. rewrite Hi. simpl.
  destruct (BusinessProfile.isFollowing s) eqn:F; simpl;
    unfold BusinessProfile.in_sync, BusinessProfile.count_follows; simpl.
  - symmetry in Hf. apply Nat.eqb_eq in Hf.
    rewrite of_pair_delete. simpl. repeat split; [|lia].
    rewrite Hc. unfold BusinessProfile.count_follows.
    rewrite (of_business_delete i u t), Hf. lia.
  - symmetry in Hf. apply Nat.eqb_neq in Hf.
    rewrite of_pair_insert, of_business_insert.
    assert (E0 : List.length (BusinessProfile.of_pair i u t) = 0%nat) by lia.
    rewrite E0. simpl. repeat split; [|lia].
    rewrite Hc. unfold BusinessProfile.count_follows. lia.
Qed.

(** X13.  The click and a reload agree.  When the page was loaded from a
  table in which the user has at most one follow row for the business,
  what [handleFollow] then shows, the flipped button and the count moved
  by one, is what [fetchBusinessData] reads back from the table the click
  has written: loading the page again changes nothing on it. *)
Theorem follow_click_agrees_with_reload
    (u i : string) (b : BusinessProfile.BusinessData)
    (postsData : option (list Post))
    (imagesData : option (list BusinessImage))
    (t : list BusinessProfile.follow) (s0 : BusinessProfile.state Post BusinessImage) :
  i <> "" ->
  (List.length (BusinessProfile.of_pair i u t) <= 1)%nat ->
  let loaded :=
    fst (BusinessProfile.fetchBusinessData (Some u) (Some i) (Data b) postsData imagesData
                           t s0) in
  let clicked := BusinessProfile.handleFollow (Some u) (Some i) t loaded in
  fst (BusinessProfile.fetchBusinessData (Some u) (Some i) (Data b) postsData imagesData
                         (snd (fst clicked)) (fst (fst clicked)))
  = fst (fst clicked)
  /\ BusinessProfile.isFollowing (fst (fst clicked))
     = negb (BusinessProfile.isFollowing loaded).
Proof.
  intros Hi L loaded clicked.
  assert (Hs : BusinessProfile.in_sync i u t loaded).
  { subst loaded. unfold BusinessProfile.fetchBusinessData.
    apply String.eqb_neq in Hi. rewrite Hi. simpl.
    split; simpl; [reflexivity | apply followCheck_exactly_one]. }
  destruct (handleFollow_in_sync u i t loaded Hi L Hs) as ((Hc & Hf) & _).
  fold clicked in Hc, Hf.
  split.
  - unfold BusinessProfile.fetchBusinessData.
    rewrite (proj2 (String.eqb_neq i "") Hi).
    rewrite followCheck_exactly_one, <- Hf, <- Hc.
    subst clicked loaded.
    unfold BusinessProfile.handleFollow, BusinessProfile.no_id,
      BusinessProfile.fetchBusinessData.
    rewrite (proj2 (String.eqb_neq i "") Hi). simpl.
    destruct (match BusinessProfile.followCheck i u t with
              | Some _ => true
              | None => false
              end); reflexivity.
  - subst clicked.
    unfold BusinessProfile.handleFollow, BusinessProfile.no_id.
    rewrite (proj2 (String.eqb_neq i "") Hi). simpl.
    destruct (BusinessProfile.isFollowing loaded); reflexivity.
Qed.

(** X14.  Follow, then unfollow, is a round trip: from a page that shows
  "Follow" for a user without a follow row for the business, two clicks
  leave the table exactly as it was, and the count and the button as they
  were. *)
Theorem follow_then_unfollow_restores
    (u i : string) (t : list BusinessProfile.follow) (s : BusinessProfile.state Post BusinessImage) :
  i <> "" ->
  BusinessProfile.isFollowing s = false ->
  BusinessProfile.of_pair i u t = [] ->
  let once := BusinessProfile.handleFollow (Some u) (Some i) t s in
  let twice :=
    BusinessProfile.handleFollow (Some u) (Some i) (snd (fst once)) (fst (fst once)) in
  snd (fst twice) = t
  /\ BusinessProfile.followerCount (fst (fst twice))
     = BusinessProfile.followerCount s
  /\ BusinessProfile.isFollowing (fst (fst twice)) = false
  /\ BusinessProfile.isFollowing (fst (fst once)) = true.
Proof.
  intros Hi F E once twice. subst twice once.
  unfold BusinessProfile.handleFollow, BusinessProfile.no_id.
  rewrite (proj2 (String.eqb_neq i "") Hi). simpl. rewrite F. simpl.
  repeat split; [|lia].
  unfold BusinessProfile.insert_follow, BusinessProfile.delete_follow.
  rewrite filter_app. simpl. rewrite !String.eqb_refl. simpl.
  rewrite app_nil_r. apply (delete_nothing i u t E).
Qed.

(** X15.  A click concerns one user and one business.  Signed out, or
  without a business id, it only navigates to the sign-in page: the table
  and the state are as before.  Signed in, every follow row of another
  user or of another business is in the table afterwards exactly if it was
  there before. *)
Theorem follow_click_frame
    (user id : option string) (t : list BusinessProfile.follow) (s : BusinessProfile.state Post BusinessImage) :
  (user = None \/ BusinessProfile.no_id id = true ->
   BusinessProfile.handleFollow user id t s = (s, t, [BusinessProfile.Navigate "/auth"]))
  /\ (forall u i r,
        user = Some u -> id = Some i ->
        BusinessProfile.business_id r <> i
        \/ BusinessProfile.user_id r <> u ->
        (In r (snd (fst (BusinessProfile.handleFollow user id t s))) <-> In r t)).
Proof.
  split.
  - intros [->|Hid]; [reflexivity|].
    unfold BusinessProfile.handleFollow. rewrite Hid.
    destruct user; reflexivity.
  - intros u i r -> -> Hr.
    assert (P : String.eqb (BusinessProfile.business_id r) i
                && String.eqb (BusinessProfile.user_id r) u = false).
    { apply andb_false_iff.
      destruct Hr as [H|H]; [left | right]; apply String.eqb_neq; exact H. }
    unfold BusinessProfile.handleFollow.
    destruct (BusinessProfile.no_id (Some i)); [reflexivity|]. simpl.
    destruct (BusinessProfile.isFollowing s); simpl.
    + unfold BusinessProfile.delete_follow. rewrite filter_In, P. simpl.
      tauto.
    + unfold BusinessProfile.insert_follow. rewrite in_app_iff. simpl.
      split; [|tauto].
      intros [H|[H|[]]]; [exact H|]. subst r. simpl in P.
      rewrite !String.eqb_refl in P. discriminate.
Qed.

End Following.

Lemma follow_click_agrees_with_reload_witness :
  BusinessProfile.followerCount
    (fst (fst (BusinessProfile.handleFollow (Some "u1") (Some "b1")
                 sample_follows
                 (fst (BusinessProfile.fetchBusinessData
                         (Some "u1") (Some "b1") (Data sample_business)
                         None None sample_follows sample_page)))))
  = 2%Z.
Proof.
  destruct (follow_click_agrees_with_reload
              unit unit "u1" "b1" sample_business None None
              sample_follows sample_page)
    as (H & _).
  - discriminate.
  - simpl. lia.
  - rewrite <- H. reflexivity.
Defined.

Lemma follow_then_unfollow_restores_witness :
  snd (fst (BusinessProfile.handleFollow (Some "u1") (Some "b1")
              (snd (fst (BusinessProfile.handleFollow (Some "u1") (Some "b1")
                           sample_follows sample_page)))
              (fst (fst (BusinessProfile.handleFollow (Some "u1") (Some "b1")
                           sample_follows sample_page)))))
  = sample_follows.
Proof.
  apply (follow_then_unfollow_restores
           unit unit "u1" "b1" sample_follows sample_page).
  - discriminate.
  - reflexivity.
  - reflexivity.
Defined.

Lemma follow_click_frame_witness :
  BusinessProfile.handleFollow None (Some "b1") sample_follows sample_page
  = (sample_page, sample_follows, [BusinessProfile.Navigate "/auth"]).
Proof.
  apply (follow_click_frame unit unit None (Some "b1")
           sample_follows sample_page).
  left. reflexivity.
Defined.

(* ------------------------------------------------------------------ *)
(** ** One user's calls and another user's status *)




